(** * action-repo: webhook receiver (src/app.py)

    A shallow embedding of the event normalisation pipeline of [app.py]:
    the branch reference resolver, the timestamp utility, the two webhook
    handlers and the three routes that touch the store, followed by the
    properties stated about them.

    Python values are an inductive type, a [dict] is an association list
    read with first-match lookup, a raised exception is the [Raise] outcome,
    and the clock and the MongoDB collection are threaded through a small
    state monad.  Of the libraries the routes call, the driver is modelled
    by what it refuses to encode and by the datetimes it hands back (naive,
    in UTC, cut to the millisecond), and the JSON provider by what it
    refuses to encode, the order of the keys and the text of a datetime;
    [fromisoformat], [str] and the order the store sorts by are parameters. *)

From Stdlib Require Import ZArith List String Ascii Bool Lia.
From Stdlib Require Import Sorted Permutation.
From Stdlib Require Import Numbers.DecimalString.
Import ListNotations.

Set Warnings "-register-all".
Local Open Scope string_scope.
Local Open Scope Z_scope.

(* ===================================================================== *)
(** ** Python values *)
(* ===================================================================== *)

(** [datetime.datetime].  [dt_tzinfo] is [None] for a naive datetime and
    [Some off] for an aware one, [off] being the UTC offset in
    microseconds.  Months are an enumeration, as a datetime never holds a
    month outside 1..12. *)
Inductive month :=
  | January | February | March | April | May | June
  | July | August | September | October | November | December.

Record datetime := mkDatetime {
  dt_year : Z;
  dt_month : month;
  dt_day : Z;
  dt_hour : Z;
  dt_minute : Z;
  dt_second : Z;
  dt_microsecond : Z;
  dt_tzinfo : option Z
}.

(** The values that reach the program: what [json.loads] builds from a
    request body (None, bool, int, float, str, list, dict), and what the
    store hands back in addition (datetime, ObjectId).  A float is kept as
    a decimal mantissa and exponent; only its being zero or not is ever
    looked at. *)
Inductive value :=
  | PNone
  | PBool (b : bool)
  | PInt (n : Z)
  | PFloat (mantissa exponent : Z)
  | PStr (s : string)
  | PList (l : list value)
  | PDict (d : list (string * value))
  | PDatetime (dt : datetime)
  | PObjectId (oid : Z).

Definition dict := list (string * value).

(* ===================================================================== *)
(** ** Calendar *)
(* ===================================================================== *)

Definition month_number (m : month) : Z :=
  match m with
  | January => 1 | February => 2 | March => 3
  | April => 4 | May => 5 | June => 6
  | July => 7 | August => 8 | September => 9
  | October => 10 | November => 11 | December => 12
  end.

Definition month_of_number (n : Z) : month :=
  match n with
  | 1 => January | 2 => February | 3 => March
  | 4 => April | 5 => May | 6 => June
  | 7 => July | 8 => August | 9 => September
  | 10 => October | 11 => November | _ => December
  end.

(** Days from 1970-01-01 to a date of the proleptic Gregorian calendar. *)
Definition days_from_civil (y m d : Z) : Z :=
  let y' := if m <=? 2 then y - 1 else y in
  let era := y' / 400 in
  let yoe := y' - era * 400 in
  let mp := (m + 9) mod 12 in
  let doy := (153 * mp + 2) / 5 + d - 1 in
  let doe := yoe * 365 + yoe / 4 - yoe / 100 + doy in
  era * 146097 + doe - 719468.

(** The date that many days after 1970-01-01: year, month number, day. *)
Definition civil_from_days (z : Z) : Z * Z * Z :=
  let z' := z + 719468 in
  let era := z' / 146097 in
  let doe := z' - era * 146097 in
  let yoe := (doe - doe / 1460 + doe / 36524 - doe / 146096) / 365 in
  let doy := doe - (365 * yoe + yoe / 4 - yoe / 100) in
  let mp := (5 * doy + 2) / 153 in
  let d := doy - (153 * mp + 2) / 5 + 1 in
  let m := if mp <? 10 then mp + 3 else mp - 9 in
  let y := yoe + era * 400 in
  (if m <=? 2 then y + 1 else y, m, d).

(** Microseconds from 1970-01-01T00:00:00 UTC to the instant a datetime
    denotes; a naive datetime is read as UTC. *)
Definition utc_microseconds (dt : datetime) : Z :=
  (((days_from_civil (dt_year dt) (month_number (dt_month dt)) (dt_day dt) * 24
     + dt_hour dt) * 60 + dt_minute dt) * 60 + dt_second dt) * 1000000
  + dt_microsecond dt
  - match dt_tzinfo dt with
    | Some off => off
    | None => 0
    end.

(** The naive datetime that many microseconds after the epoch. *)
Definition naive_of_microseconds (us : Z) : datetime :=
  let seconds := us / 1000000 in
  let minutes := seconds / 60 in
  let hours := minutes / 60 in
  let days := hours / 24 in
  let '(y, m, d) := civil_from_days days in
  mkDatetime y (month_of_number m) d (hours mod 24) (minutes mod 60)
             (seconds mod 60) (us mod 1000000) None.

(** [dt - dt.utcoffset()] without its tzinfo: the same instant as a naive
    datetime in UTC. *)
Definition to_utc (dt : datetime) : datetime :=
  naive_of_microseconds (utc_microseconds dt).

(** The datetime the driver hands back for a stored one: the same instant,
    naive, in UTC, cut to the millisecond. *)
Definition bson_datetime (dt : datetime) : datetime :=
  naive_of_microseconds (utc_microseconds dt / 1000 * 1000).

(** [dt.weekday()]: 0 is Monday. *)
Definition weekday (dt : datetime) : Z :=
  (days_from_civil (dt_year dt) (month_number (dt_month dt)) (dt_day dt) + 3)
  mod 7.

(** Exceptions the modelled code can raise. *)
Inductive exn :=
  | AttributeError | TypeError | ValueError | IndexError
  | OverflowError | InvalidDocument.

Inductive outcome (A : Type) :=
  | Ok (a : A)
  | Raise (e : exn).
Arguments Ok {A} a.
Arguments Raise {A} e.

(** [bool(v)]: the truth value Python gives [v] in [if v], [not v],
    [a or b]. *)
Definition truthy (v : value) : bool :=
  match v with
  | PNone => false
  | PBool b => b
  | PInt n => negb (n =? 0)
  | PFloat m _ => negb (m =? 0)
  | PStr s => negb (String.eqb s "")
  | PList l => match l with [] => false | _ => true end
  | PDict d => match d with [] => false | _ => true end
  | PDatetime _ => true
  | PObjectId _ => true
  end.

(** [d.get(k)] on a dict, as an option.  A key occurs once in a Python
    dict; should a list repeat a key, only its first entry is seen. *)
Fixpoint lookup (k : string) (d : dict) : option value :=
  match d with
  | [] => None
  | (k', v) :: rest => if String.eqb k k' then Some v else lookup k rest
  end.

Definition get_or (k : string) (d : dict) (dflt : value) : value :=
  match lookup k d with
  | Some v => v
  | None => dflt
  end.

(** [o.get(k, dflt)]: only a dict has the method; on any other value the
    attribute lookup raises AttributeError. *)
Definition py_get (o : value) (k : string) (dflt : value) : outcome value :=
  match o with
  | PDict d => Ok (get_or k d dflt)
  | _ => Raise AttributeError
  end.

(** [v == "lit"] for a string literal: true on that very string only. *)
Definition eq_str (v : value) (lit : string) : bool :=
  match v with
  | PStr s => String.eqb s lit
  | _ => false
  end.

(* ===================================================================== *)
(** ** String methods *)
(* ===================================================================== *)

(** [s.replace(old, new)] for a non-empty [old]: scan left to right; at an
    occurrence of [old] emit [new] and skip the occurrence, otherwise emit
    the character.  [skip] counts the characters of the current occurrence
    still to be dropped. *)
Fixpoint replace_from (old new : string) (skip : nat) (s : string) : string :=
  match s with
  | EmptyString => EmptyString
  | String c rest =>
      match skip with
      | S k => replace_from old new k rest
      | O =>
          if String.prefix old s
          then new ++ replace_from old new (Nat.pred (String.length old)) rest
          else String c (replace_from old new O rest)
      end
  end.

(** With an empty [old] Python puts [new] before every character and at
    the end. *)
Fixpoint intersperse_all (new s : string) : string :=
  match s with
  | EmptyString => new
  | String c rest => new ++ String c (intersperse_all new rest)
  end.

Definition str_replace (s old new : string) : string :=
  match old with
  | EmptyString => intersperse_all new s
  | _ => replace_from old new O s
  end.

(** [v.replace(old, new)] where [v] is any value.  A str has the method; a
    datetime has a [replace] of its own, which rejects string arguments
    with TypeError; nothing else has the attribute. *)
Definition py_replace (v : value) (old new : string) : outcome value :=
  match v with
  | PStr s => Ok (PStr (str_replace s old new))
  | PDatetime _ => Raise TypeError
  | _ => Raise AttributeError
  end.

(** [v.startswith(p)]. *)
Definition py_startswith (v : value) (p : string) : outcome bool :=
  match v with
  | PStr s => Ok (String.prefix p s)
  | _ => Raise AttributeError
  end.

(* ===================================================================== *)
(** ** Branch reference resolver *)
(* ===================================================================== *)

Definition heads_prefix : string := "refs/heads/".

(** [ref_to_branch(ref)]. *)
Definition ref_to_branch (ref : value) : outcome value :=
  if negb (truthy ref) then Ok (PStr "unknown")
  else
    match py_startswith ref heads_prefix with
    | Raise e => Raise e
    | Ok true => py_replace ref heads_prefix ""
    | Ok false => Ok ref
    end.

(* ===================================================================== *)
(** ** The world: clock and collection *)
(* ===================================================================== *)

(** A document of the [events] collection: the [_id] the store gave it,
    and the fields of the record that was handed to [insert_one]. *)
Record document := mkDocument {
  doc_id : value;
  doc_fields : dict
}.

(** [clock] holds the successive readings of the system clock, [ticks] how
    many were consumed, [store] the collection in insertion order and
    [next_oid] the identifier the next inserted document receives. *)
Record world := mkWorld {
  clock : nat -> datetime;
  ticks : nat;
  store : list document;
  next_oid : Z
}.

Definition M (A : Type) : Type := world -> outcome A * world.

Definition ret {A} (a : A) : M A := fun w => (Ok a, w).

Definition bind {A B} (m : M A) (f : A -> M B) : M B :=
  fun w =>
    match m w with
    | (Ok a, w') => f a w'
    | (Raise e, w') => (Raise e, w')
    end.

Definition lift {A} (o : outcome A) : M A := fun w => (o, w).

Notation "x <- m ;; k" := (bind m (fun x => k))
  (at level 61, m at next level, right associativity).

(** [try: body except (caught): handler]. *)
Definition try_except {A} (body : M A) (caught : exn -> bool) (handler : M A)
  : M A :=
  fun w =>
    match body w with
    | (Ok a, w') => (Ok a, w')
    | (Raise e, w') => if caught e then handler w' else (Raise e, w')
    end.

Definition naive (dt : datetime) : datetime :=
  mkDatetime (dt_year dt) (dt_month dt) (dt_day dt) (dt_hour dt)
             (dt_minute dt) (dt_second dt) (dt_microsecond dt) None.

Definition tick (w : world) : world :=
  mkWorld (clock w) (S (ticks w)) (store w) (next_oid w).

(** [datetime.utcnow()]: the next clock reading, as a naive datetime. *)
Definition utcnow : M datetime :=
  fun w => (Ok (naive (clock w (ticks w))), tick w).

Fixpoint has_nul (s : string) : bool :=
  match s with
  | EmptyString => false
  | String c rest => Ascii.eqb c "000"%char || has_nul rest
  end.

(** The exception the driver raises when it encodes a value as BSON, if
    any: OverflowError for an integer beyond 64 bits and for an aware
    datetime whose UTC form leaves the years 1..9999, InvalidDocument for a
    key that holds a NUL character.  Entries are encoded in order, the key
    before its value. *)
Fixpoint bson_error (v : value) : option exn :=
  match v with
  | PInt n =>
      if (-9223372036854775808 <=? n) && (n <=? 9223372036854775807)
      then None else Some OverflowError
  | PDatetime dt =>
      match dt_tzinfo dt with
      | None => None
      | Some _ =>
          if (1 <=? dt_year (to_utc dt)) && (dt_year (to_utc dt) <=? 9999)
          then None else Some OverflowError
      end
  | PList l =>
      (fix first_error (l : list value) : option exn :=
         match l with
         | [] => None
         | x :: rest =>
             match bson_error x with
             | Some e => Some e
             | None => first_error rest
             end
         end) l
  | PDict d =>
      (fix first_error (d : list (string * value)) : option exn :=
         match d with
         | [] => None
         | (k, x) :: rest =>
             if has_nul k then Some InvalidDocument
             else
               match bson_error x with
               | Some e => Some e
               | None => first_error rest
               end
         end) d
  | _ => None
  end.

(** [events_collection.insert_one(doc)]: the record is encoded, which can
    raise, and then appended as it was handed over; what the driver makes
    of it when it is read again is [decoded_document] below.  Failures of
    the connection, the limit on the size of a document and the checks
    that differ between versions of the driver and of the server (a key
    with a dot or a leading dollar) are left out. *)
Definition insert_one (doc : dict) : M unit :=
  fun w =>
    match bson_error (PDict doc) with
    | Some e => (Raise e, w)
    | None =>
        (Ok tt,
         mkWorld (clock w) (ticks w)
                 (store w ++ [mkDocument (PObjectId (next_oid w)) doc])
                 (next_oid w + 1))
    end.

(* ===================================================================== *)
(** ** Timestamp utility *)
(* ===================================================================== *)

Definition Z_to_string (n : Z) : string :=
  NilZero.string_of_int (Z.to_int n).

Fixpoint zeros (n : nat) : string :=
  match n with
  | O => ""
  | S k => String "0" (zeros k)
  end.

(** [%0<width>d] for a non-negative number. *)
Definition zpad (width : nat) (n : Z) : string :=
  let s := Z_to_string n in
  zeros (width - String.length s) ++ s.

(** [l[i]] with Python's negative indices. *)
Definition py_index {A} (l : list A) (i : Z) : outcome A :=
  let n := Z.of_nat (List.length l) in
  let j := if i <? 0 then i + n else i in
  if (j <? 0) || (n <=? j) then Raise IndexError
  else
    match nth_error l (Z.to_nat j) with
    | Some x => Ok x
    | None => Raise IndexError
    end.

(** Lines 62-66 of [format_timestamp]: the suffix for a day number. *)
Definition ordinal_suffix (day : Z) : outcome string :=
  if ((4 <=? day) && (day <=? 20)) || ((24 <=? day) && (day <=? 30))
  then Ok "th"
  else
    if day mod 10 <=? 3
    then py_index ["st"; "nd"; "rd"] (day mod 10 - 1)
    else Ok "th".

(** [%B] in the C locale. *)
Definition month_name (m : month) : string :=
  match m with
  | January => "January" | February => "February" | March => "March"
  | April => "April" | May => "May" | June => "June"
  | July => "July" | August => "August" | September => "September"
  | October => "October" | November => "November" | December => "December"
  end.

(** [dt.strftime(f"%d{suffix} %B %Y")]: [%d] is the day zero-padded to two
    digits, [%Y] the year as the C library of the platform prints it,
    without padding. *)
Definition strftime_date (dt : datetime) (suffix : string) : string :=
  zpad 2 (dt_day dt) ++ suffix ++ " " ++ month_name (dt_month dt) ++ " "
    ++ Z_to_string (dt_year dt).

(** Lines 61-72 of [format_timestamp], once [dt] is a datetime. *)
Definition format_datetime (dt : datetime) : outcome string :=
  match ordinal_suffix (dt_day dt) with
  | Raise e => Raise e
  | Ok suffix =>
      let date_str := strftime_date dt suffix in
      let hour := if dt_hour dt mod 12 =? 0 then 12 else dt_hour dt mod 12 in
      let minute := dt_minute dt in
      let ampm := if dt_hour dt <? 12 then "AM" else "PM" in
      let time_str := Z_to_string hour ++ ":" ++ zpad 2 minute ++ " " ++ ampm in
      Ok (date_str ++ " - " ++ time_str ++ " UTC")
  end.

(** [format_timestamp(dt)]. *)
Definition format_timestamp (v : value) : M string :=
  dt <- match v with
        | PDatetime d => ret d
        | _ => utcnow
        end ;;
  lift (format_datetime dt).

(** The UTC offset as [isoformat] prints it. *)
Definition format_offset (off : Z) : string :=
  let sign := if off <? 0 then "-" else "+" in
  let a := Z.abs off in
  let hh := a / 3600000000 in
  let mm := (a / 60000000) mod 60 in
  let ss := (a / 1000000) mod 60 in
  let us := a mod 1000000 in
  sign ++ zpad 2 hh ++ ":" ++ zpad 2 mm
    ++ (if (ss =? 0) && (us =? 0) then ""
        else ":" ++ zpad 2 ss ++ (if us =? 0 then "" else "." ++ zpad 6 us)).

(** [dt.isoformat()]. *)
Definition isoformat (dt : datetime) : string :=
  zpad 4 (dt_year dt) ++ "-" ++ zpad 2 (month_number (dt_month dt)) ++ "-"
    ++ zpad 2 (dt_day dt) ++ "T" ++ zpad 2 (dt_hour dt) ++ ":"
    ++ zpad 2 (dt_minute dt) ++ ":" ++ zpad 2 (dt_second dt)
    ++ (if dt_microsecond dt =? 0 then "" else "." ++ zpad 6 (dt_microsecond dt))
    ++ match dt_tzinfo dt with
       | None => ""
       | Some off => format_offset off
       end.

Definition example_instant : datetime :=
  mkDatetime 2021 April 1 21 30 0 0 None.


(* ===================================================================== *)
(** ** Webhook handlers *)
(* ===================================================================== *)

(** [v or {}]. *)
Definition or_empty (v : value) : value :=
  if truthy v then v else PDict [].

(** [handle_push(payload)]. *)
Definition handle_push (payload : value) : M dict :=
  repository <- lift (py_get payload "repository" (PDict [])) ;;
  repo <- lift (py_get repository "name" (PStr "unknown-repo")) ;;
  pusher_obj <- lift (py_get payload "pusher" (PDict [])) ;;
  pusher <- lift (py_get pusher_obj "name" (PStr "unknown-user")) ;;
  ref <- lift (py_get payload "ref" (PStr "")) ;;
  branch <- lift (py_replace ref "refs/heads/" "") ;;
  timestamp <- utcnow ;;
  created_at <- utcnow ;;
  ret [("action", PStr "push");
       ("author", pusher);
       ("repo", repo);
       ("from_branch", PNone);
       ("to_branch", branch);
       ("timestamp", PDatetime timestamp);
       ("created_at", PDatetime created_at)].

(** Lines 105 and 123:
    [(pr.get(who) or {}).get("login")
       or (payload.get("sender") or {}).get("login") or "Unknown"],
    the right operand of each [or] being evaluated only when the left one
    is falsy. *)
Definition login_chain (pr payload : value) (who : string) : outcome value :=
  match py_get pr who PNone with
  | Raise e => Raise e
  | Ok holder =>
      match py_get (or_empty holder) "login" PNone with
      | Raise e => Raise e
      | Ok login =>
          if truthy login then Ok login
          else
            match py_get payload "sender" PNone with
            | Raise e => Raise e
            | Ok sender =>
                match py_get (or_empty sender) "login" PNone with
                | Raise e => Raise e
                | Ok login' =>
                    Ok (if truthy login' then login' else PStr "Unknown")
                end
            end
      end
  end.

Section Handlers.

(** [datetime.fromisoformat], a library function: [None] stands for the
    ValueError it raises on a string it cannot parse. *)
Variable fromisoformat : string -> option datetime.

(** [parse_github_timestamp(ts_str)]. *)
Definition parse_github_timestamp (ts_str : value) : M datetime :=
  if negb (truthy ts_str) then utcnow
  else
    try_except
      (arg <- lift (py_replace ts_str "Z" "+00:00") ;;
       match arg with
       | PStr s =>
           match fromisoformat s with
           | Some dt => ret dt
           | None => lift (Raise ValueError)
           end
       | _ => lift (Raise TypeError)
       end)
      (fun e => match e with ValueError | TypeError => true | _ => false end)
      utcnow.

(** [handle_pull_request(payload)]; [None] is the Ignore outcome. *)
Definition handle_pull_request (payload : value) : M (option dict) :=
  pull_request <- lift (py_get payload "pull_request" PNone) ;;
  let pr := or_empty pull_request in
  action <- lift (py_get payload "action" PNone) ;;
  merged <- lift (py_get pr "merged" (PBool false)) ;;
  if eq_str action "closed" && truthy merged then
    base <- lift (py_get pr "base" (PDict [])) ;;
    head <- lift (py_get pr "head" (PDict [])) ;;
    base_ref <- lift (py_get base "ref" (PStr "")) ;;
    to_branch <- lift (ref_to_branch base_ref) ;;
    head_ref <- lift (py_get head "ref" (PStr "")) ;;
    from_branch <- lift (ref_to_branch head_ref) ;;
    merger <- lift (login_chain pr payload "merged_by") ;;
    merged_at <- lift (py_get pr "merged_at" PNone) ;;
    ts <- (if truthy merged_at then parse_github_timestamp merged_at
           else utcnow) ;;
    repository <- lift (py_get payload "repository" PNone) ;;
    repo <- lift (py_get (or_empty repository) "full_name" (PStr "")) ;;
    created_at <- utcnow ;;
    ret (Some [("action", PStr "merge");
               ("author", merger);
               ("to_branch", to_branch);
               ("from_branch", from_branch);
               ("timestamp", PDatetime ts);
               ("repo", repo);
               ("created_at", PDatetime created_at)])
  else if eq_str action "opened" || eq_str action "synchronize" then
    base <- lift (py_get pr "base" (PDict [])) ;;
    head <- lift (py_get pr "head" (PDict [])) ;;
    base_ref <- lift (py_get base "ref" (PStr "")) ;;
    to_branch <- lift (ref_to_branch base_ref) ;;
    head_ref <- lift (py_get head "ref" (PStr "")) ;;
    from_branch <- lift (ref_to_branch head_ref) ;;
    author <- lift (login_chain pr payload "user") ;;
    ts_str <- lift (py_get pr "created_at" PNone) ;;
    ts <- parse_github_timestamp ts_str ;;
    repository <- lift (py_get payload "repository" PNone) ;;
    repo <- lift (py_get (or_empty repository) "full_name" (PStr "")) ;;
    created_at <- utcnow ;;
    ret (Some [("action", PStr "pull_request");
               ("author", author);
               ("to_branch", to_branch);
               ("from_branch", from_branch);
               ("timestamp", PDatetime ts);
               ("repo", repo);
               ("created_at", PDatetime created_at)])
  else ret None.

(* ===================================================================== *)
(** ** Routes *)
(* ===================================================================== *)

Inductive response := Pong | Stored | Ignored.

(** [POST /webhook].  [event] is the [X-GitHub-Event] header (the empty
    string when absent); [body] is what [request.get_json(force=True,
    silent=True)] returns, [None] for a body that is not JSON.  An
    exception leaves the handler before anything is inserted. *)
Definition webhook (event : string) (body : option value) : M response :=
  let payload :=
    match body with
    | Some v => or_empty v
    | None => PDict []
    end in
  if String.eqb event "push" then
    doc <- handle_push payload ;;
    _ <- insert_one doc ;;
    ret Stored
  else if String.eqb event "pull_request" then
    doc <- handle_pull_request payload ;;
    match doc with
    | Some d => _ <- insert_one d ;; ret Stored
    | None => ret Ignored
    end
  else if String.eqb event "ping" then ret Pong
  else ret Ignored.

End Handlers.

(** [GET /debug-insert]. *)
Definition debug_insert : M string :=
  created_at <- utcnow ;;
  _ <- insert_one [("action", PStr "debug");
                   ("author", PStr "ankith");
                   ("repo", PStr "manual-test");
                   ("created_at", PDatetime created_at)] ;;
  ret "Inserted test document".

(* ===================================================================== *)
(** ** JSON encoding of the answer *)
(* ===================================================================== *)

Definition day_abbr (wd : Z) : string :=
  match wd with
  | 0 => "Mon" | 1 => "Tue" | 2 => "Wed" | 3 => "Thu"
  | 4 => "Fri" | 5 => "Sat" | _ => "Sun"
  end.

Definition month_abbr (m : month) : string :=
  match m with
  | January => "Jan" | February => "Feb" | March => "Mar"
  | April => "Apr" | May => "May" | June => "Jun"
  | July => "Jul" | August => "Aug" | September => "Sep"
  | October => "Oct" | November => "Nov" | December => "Dec"
  end.

(** The HTTP date the JSON provider writes for a datetime: the instant in
    UTC as in [Thu, 01 Apr 2021 21:30:00 GMT]. *)
Definition http_date (dt : datetime) : string :=
  let u := to_utc dt in
  day_abbr (weekday u) ++ ", " ++ zpad 2 (dt_day u) ++ " "
    ++ month_abbr (dt_month u) ++ " " ++ zpad 4 (dt_year u) ++ " "
    ++ zpad 2 (dt_hour u) ++ ":" ++ zpad 2 (dt_minute u) ++ ":"
    ++ zpad 2 (dt_second u) ++ " GMT".

(** The provider can encode the value: there is no ObjectId in it. *)
Fixpoint jsonable (v : value) : bool :=
  match v with
  | PObjectId _ => false
  | PList l => forallb jsonable l
  | PDict d => forallb (fun kv => let '(_, x) := kv in jsonable x) d
  | _ => true
  end.

Fixpoint insert_key (kv : string * value) (l : dict) : dict :=
  match l with
  | [] => [kv]
  | x :: rest =>
      match String.compare (fst kv) (fst x) with
      | Gt => x :: insert_key kv rest
      | _ => kv :: l
      end
  end.

(** The entries of an object in the order of their keys. *)
Definition sort_keys (d : dict) : dict := fold_right insert_key [] d.

(** The JSON value the provider writes for a value it can encode: a
    datetime becomes its HTTP date and the keys of every object are
    sorted. *)
Fixpoint json_of (v : value) : value :=
  match v with
  | PDatetime dt => PStr (http_date dt)
  | PList l => PList (map json_of l)
  | PDict d => PDict (sort_keys (map (fun kv => let '(k, x) := kv in (k, json_of x)) d))
  | _ => v
  end.

Definition json_object (d : dict) : dict :=
  sort_keys (map (fun kv => let '(k, x) := kv in (k, json_of x)) d).

(** [jsonify(events)]: the JSON array the response carries, up to its text;
    TypeError when an element holds a value the provider cannot encode. *)
Definition jsonify (events : list dict) : outcome (list dict) :=
  if forallb (fun e => jsonable (PDict e)) events
  then Ok (map json_object events)
  else Raise TypeError.

(** What the driver hands back for a stored value: datetimes, at any depth,
    as [bson_datetime] gives them. *)
Fixpoint bson_decoded (v : value) : value :=
  match v with
  | PDatetime dt => PDatetime (bson_datetime dt)
  | PList l => PList (map bson_decoded l)
  | PDict d => PDict (map (fun kv => let '(k, x) := kv in (k, bson_decoded x)) d)
  | _ => v
  end.

Definition decoded_document (doc : document) : document :=
  mkDocument (doc_id doc)
    (map (fun kv => let '(k, x) := kv in (k, bson_decoded x)) (doc_fields doc)).

Section Query.

(** The builtin [str], applied below to an [_id] and to a stored timestamp
    that is not a datetime. *)
Variable py_str : value -> string.

(** The order in which the store compares two [created_at] values when it
    sorts. *)
Variable bson_leb : value -> value -> bool.

(** [doc.get(k)]. *)
Definition field (k : string) (doc : document) : value :=
  match lookup k (doc_fields doc) with
  | Some v => v
  | None => PNone
  end.

Fixpoint insert_desc (d : document) (l : list document) : list document :=
  match l with
  | [] => [d]
  | x :: rest =>
      if bson_leb (field "created_at" x) (field "created_at" d)
      then d :: l
      else x :: insert_desc d rest
  end.

(** [events_collection.find().sort("created_at", -1).limit(100)], the
    documents being what the driver hands back for the stored ones. *)
Definition find_sort_limit (w : world) : list document :=
  firstn 100 (fold_right insert_desc [] (map decoded_document (store w))).

(** The body of the loop of [get_events]. *)
Definition reshape (doc : document) : M dict :=
  let ts := field "timestamp" doc in
  shown <- match ts with
           | PDatetime d =>
               formatted <- format_timestamp ts ;;
               ret (PStr formatted,
                    PStr (match dt_tzinfo d with
                          | None => isoformat d ++ "Z"
                          | Some _ => isoformat d
                          end))
           | _ => ret (PStr (if truthy ts then py_str ts else ""), ts)
           end ;;
  let created := field "created_at" doc in
  ret [("_id", PStr (py_str (doc_id doc)));
       ("action", field "action" doc);
       ("author", field "author" doc);
       ("to_branch", field "to_branch" doc);
       ("from_branch", field "from_branch" doc);
       ("repo", field "repo" doc);
       ("timestamp_formatted", fst shown);
       ("timestamp", snd shown);
       ("created_at", match created with
                      | PDatetime d => PStr (isoformat d ++ "Z")
                      | _ => created
                      end)].

Fixpoint for_each {A B} (f : A -> M B) (l : list A) : M (list B) :=
  match l with
  | [] => ret []
  | x :: rest =>
      y <- f x ;;
      ys <- for_each f rest ;;
      ret (y :: ys)
  end.

(** [GET /api/events]. *)
Definition get_events : M (list dict) :=
  fun w =>
    (events <- for_each reshape (find_sort_limit w) ;;
     lift (jsonify events)) w.

End Query.

(** The requests the application answers. *)
Inductive request :=
  | Webhook (event : string) (body : option value)
  | DebugInsert
  | GetEvents
  | Index.

Section Server.

Variable fromisoformat : string -> option datetime.
Variable py_str : value -> string.
Variable bson_leb : value -> value -> bool.

(** The world after a request is answered; a handler that raises is
    answered with a server error and leaves the world as it was when the
    exception left it. *)
Definition serve (req : request) (w : world) : world :=
  match req with
  | Webhook event body => snd (webhook fromisoformat event body w)
  | DebugInsert => snd (debug_insert w)
  | GetEvents => snd (get_events py_str bson_leb w)
  | Index => w
  end.

Definition run (reqs : list request) (w : world) : world :=
  fold_left (fun w' req => serve req w') reqs w.

End Server.

(* ===================================================================== *)
(** ** Reference definitions *)
(* ===================================================================== *)

(** Definitions that follow the wording of the specification rather than
    the code, and the readers used to name a payload's fields in the
    statements below. *)

(** The prefix removed once from the front, which is what the resolver is
    described to compute on a ref that begins with it. *)
Definition strip_leading (p s : string) : string :=
  if String.prefix p s
  then String.substring (String.length p) (String.length s - String.length p) s
  else s.

(** The suffix rule as the specification words it: days 11 to 20 take th,
    any other day goes by its last digit. *)
Definition suffix_by_rule (day : Z) : string :=
  if (11 <=? day) && (day <=? 20) then "th"
  else
    match day mod 10 with
    | 1 => "st"
    | 2 => "nd"
    | 3 => "rd"
    | _ => "th"
    end.

(** [payload.k1.k2...]: the value found by following the keys through
    nested objects, [None] when a key is missing or a step is not an
    object. *)
Fixpoint at_path (ks : list string) (v : value) : option value :=
  match ks with
  | [] => Some v
  | k :: rest =>
      match v with
      | PDict d =>
          match lookup k d with
          | Some v' => at_path rest v'
          | None => None
          end
      | _ => None
      end
  end.

Definition field_at (ks : list string) (payload dflt : value) : value :=
  match at_path ks payload with
  | Some v => v
  | None => dflt
  end.

(** The record of a pull_request payload is classified [tag]. *)
Definition classified (res : option dict) (tag : string) : Prop :=
  exists r, res = Some r /\ lookup "action" r = Some (PStr tag).

(** First non-empty of [pull_request.<who>.login], [sender.login] and the
    literal Unknown. *)
Definition chosen_login (who : string) (payload : value) : value :=
  let primary := field_at ["pull_request"; who; "login"] payload PNone in
  let sender := field_at ["sender"; "login"] payload PNone in
  if truthy primary then primary
  else if truthy sender then sender
  else PStr "Unknown".

(** Key [k] is absent from [d], or its value passes [ok]. *)
Definition absent_or (ok : value -> bool) (k : string) (d : dict) : bool :=
  match lookup k d with
  | None => true
  | Some v => ok v
  end.

Definition is_str (v : value) : bool :=
  match v with
  | PStr _ => true
  | _ => false
  end.

Definition is_dict_with (ok : dict -> bool) (v : value) : bool :=
  match v with
  | PDict d => ok d
  | _ => false
  end.

Definition is_dict (v : value) : bool := is_dict_with (fun _ => true) v.

Definition is_datetime (v : value) : bool :=
  match v with
  | PDatetime _ => true
  | _ => false
  end.

(** The value is falsy or passes [ok]: what [v or {}] and [if not v] let
    through. *)
Definition falsy_or (ok : value -> bool) (v : value) : bool :=
  negb (truthy v) || ok v.

(** [ref_to_branch(pr.get(side, {}).get("ref", ""))] can be evaluated:
    [side] is absent or an object, and its [ref] is absent, falsy or a
    string. *)
Definition side_reads (side : string) (pr : dict) : bool :=
  absent_or
    (is_dict_with (fun holder => falsy_or is_str (get_or "ref" holder (PStr ""))))
    side pr.

(** The author expression can be evaluated: [who] is absent, falsy or an
    object, and when it gives no truthy login [sender] is absent, falsy or
    an object too. *)
Definition login_reads (who : string) (pr d : dict) : bool :=
  match or_empty (get_or who pr PNone) with
  | PDict holder =>
      truthy (get_or "login" holder PNone)
      || falsy_or is_dict (get_or "sender" d PNone)
  | _ => false
  end.

(** [parse_github_timestamp] can be applied: the value is absent, falsy, a
    string or a datetime. *)
Definition time_reads (v : value) : bool :=
  falsy_or (fun v => is_str v || is_datetime v) v.

(** Every read of a branch that builds a record can be evaluated. *)
Definition record_reads (who time_key : string) (pr d : dict) : bool :=
  side_reads "base" pr
  && side_reads "head" pr
  && login_reads who pr d
  && time_reads (get_or time_key pr PNone)
  && falsy_or is_dict (get_or "repository" d PNone).

(** The shapes [handle_pull_request] accepts: [pull_request] is absent,
    falsy or an object, and the reads of the branch the action selects can
    be evaluated; a branch that is not taken constrains nothing. *)
Definition accepted_shapes (d : dict) : bool :=
  match or_empty (get_or "pull_request" d PNone) with
  | PDict pr =>
      let action := get_or "action" d PNone in
      let merged := get_or "merged" pr (PBool false) in
      if eq_str action "closed" && truthy merged
      then record_reads "merged_by" "merged_at" pr d
      else if eq_str action "opened" || eq_str action "synchronize"
      then record_reads "user" "created_at" pr d
      else true
  | _ => false
  end.

(** The record built for a pull_request payload classified [tag], whose
    author comes from [pull_request.<who>]. *)
Definition pr_record (tag who : string) (payload to_branch from_branch : value)
    (ts created : datetime) : dict :=
  [("action", PStr tag);
   ("author", chosen_login who payload);
   ("to_branch", to_branch);
   ("from_branch", from_branch);
   ("timestamp", PDatetime ts);
   ("repo", field_at ["repository"; "full_name"] payload (PStr ""));
   ("created_at", PDatetime created)].

(** [ref_to_branch] applied to [pull_request.<side>.ref]. *)
Definition resolved (side : string) (payload : value) : outcome value :=
  ref_to_branch (field_at ["pull_request"; side; "ref"] payload (PStr "")).

(** Concrete surroundings for the examples: a clock stopped at
    [example_instant], an empty collection, and a [fromisoformat] that
    rejects every string. *)
Definition stopped_clock : nat -> datetime := fun _ => example_instant.

Definition empty_world : world := mkWorld stopped_clock 0 [] 0.

Definition rejecting_fromisoformat : string -> option datetime :=
  fun _ => None.

(** The closed set of action tags. *)
Definition core_actions : list string := ["push"; "pull_request"; "merge"].

(** Every stored document carries an action tag from [allowed]. *)
Definition stored_actions_in (allowed : list string) (w : world) : Prop :=
  Forall (fun doc =>
            exists a, lookup "action" (doc_fields doc) = Some (PStr a) /\
                      In a allowed)
         (store w).


(** What [timestamp_formatted] holds for a stored document: the formatted
    instant when the stored timestamp is a datetime, the empty string when
    it is absent or falsy, and its [str] otherwise. *)
Definition timestamp_shown (py_str : value -> string) (doc : document)
    (tf : string) : Prop :=
  match field "timestamp" doc with
  | PDatetime dt => forall w, format_timestamp (PDatetime dt) w = (Ok tf, w)
  | ts => tf = if truthy ts then py_str ts else ""
  end.

(** A number that grows with the date and time of a datetime whose fields
    are in range. *)
Definition instant_key (dt : datetime) : Z :=
  (((((dt_year dt * 13 + month_number (dt_month dt)) * 32 + dt_day dt) * 24
       + dt_hour dt) * 60 + dt_minute dt) * 60 + dt_second dt) * 1000000
  + dt_microsecond dt.

(** An order on [created_at] values for the examples: instants by date and
    time, anything else below every instant. *)
Definition instant_leb (a b : value) : bool :=
  match a, b with
  | PDatetime x, PDatetime y => instant_key x <=? instant_key y
  | PDatetime _, _ => false
  | _, _ => true
  end.

(** The builtin [str] on a str, which is its own text; the examples apply
    it to nothing else. *)
Definition text_of (v : value) : string :=
  match v with
  | PStr s => s
  | _ => ""
  end.


(** [m] does not touch the collection, however it ends. *)
Definition keeps_store {A} (m : M A) : Prop :=
  forall w, store (snd (m w)) = store w.

(** Payloads used in the examples. *)
Definition merged_by_carol : dict :=
  [("action", PStr "closed");
   ("pull_request",
    PDict [("merged", PBool true);
           ("merged_by", PDict [("login", PStr "carol")])])].

Definition merged_yes : dict :=
  [("action", PStr "closed");
   ("pull_request", PDict [("merged", PStr "yes")])].

Definition pusher_unnamed : dict :=
  [("pusher", PDict [("name", PStr "")]); ("ref", PStr "refs/heads/main")].

Definition push_by_alice : dict :=
  [("repository", PDict [("name", PStr "repo1")]);
   ("pusher", PDict [("name", PStr "alice")]);
   ("ref", PStr "refs/heads/main")].

Definition opened_on_bare_prefix : dict :=
  [("action", PStr "opened");
   ("pull_request", PDict [("base", PDict [("ref", PStr "refs/heads/")])])].

Definition opened_by_bob : dict :=
  [("action", PStr "opened");
   ("pull_request",
    PDict [("base", PDict [("ref", PStr "refs/heads/main")]);
           ("head", PDict [("ref", PStr "feature")]);
           ("user", PDict [("login", PStr "bob")])])].

(** An opened pull request as the platform sends it, with the fields of a
    merge still null. *)
Definition opened_as_sent : dict :=
  [("action", PStr "opened");
   ("pull_request",
    PDict [("user", PDict [("login", PStr "bob")]);
           ("created_at", PStr "2021-04-01T21:30:00Z");
           ("merged_at", PNone);
           ("merged_by", PNone);
           ("merged", PBool false);
           ("base", PDict [("ref", PStr "main")]);
           ("head", PDict [("ref", PStr "feature")])]);
   ("repository", PDict [("full_name", PStr "octo/repo1")]);
   ("sender", PDict [("login", PStr "bob")])].




(* ===================================================================== *)
(** ** Further definitions *)
(* ===================================================================== *)

(** [old] occurs at no position of [s]. *)
Fixpoint occurs_nowhere (old s : string) : bool :=
  match s with
  | EmptyString => negb (String.prefix old s)
  | String _ rest => negb (String.prefix old s) && occurs_nowhere old rest
  end.

(** The example instant as an aware datetime at offset zero. *)
Definition example_instant_utc : datetime :=
  mkDatetime 2021 April 1 21 30 0 0 (Some 0).

(** A [fromisoformat] that knows one string, the example instant written
    with its offset. *)
Definition example_fromisoformat (s : string) : option datetime :=
  if String.eqb s "2021-04-01T21:30:00+00:00" then Some example_instant_utc
  else None.

(** The fields [handle_push] goes through are absent or of the JSON type
    the platform gives them: objects for [repository] and [pusher], a
    string for [ref]. *)
Definition push_types (d : dict) : bool :=
  absent_or is_dict "repository" d
  && absent_or is_dict "pusher" d
  && absent_or is_str "ref" d.

(** The record [handle_push] builds. *)
Definition push_record (payload : value) (ref : string)
    (ts created : datetime) : dict :=
  [("action", PStr "push");
   ("author", field_at ["pusher"; "name"] payload (PStr "unknown-user"));
   ("repo", field_at ["repository"; "name"] payload (PStr "unknown-repo"));
   ("from_branch", PNone);
   ("to_branch", PStr (str_replace ref "refs/heads/" ""));
   ("timestamp", PDatetime ts);
   ("created_at", PDatetime created)].

Definition labeled_with_text_pull_request : dict :=
  [("action", PStr "labeled"); ("pull_request", PStr "none")].

Definition merged_at_example : dict :=
  [("action", PStr "closed");
   ("pull_request",
    PDict [("merged", PBool true);
           ("merged_at", PStr "2021-04-01T21:30:00Z")])].

(** [request.get_json(force=True, silent=True) or {}]. *)
Definition request_payload (body : option value) : value :=
  match body with
  | Some v => or_empty v
  | None => PDict []
  end.

(** The fields of a document whose values the query hands to the JSON
    encoder. *)
Definition passed_keys : list string :=
  ["action"; "author"; "to_branch"; "from_branch"; "repo"; "timestamp";
   "created_at"].

(** The JSON encoder accepts every value the query takes from the
    document. *)
Definition encodable_document (doc : document) : bool :=
  forallb (fun k => jsonable (field k doc)) passed_keys.

(** Line 161: what the loop of the query puts under [timestamp]. *)
Definition timestamp_passed (doc : document) : value :=
  match field "timestamp" doc with
  | PDatetime dt =>
      PStr (match dt_tzinfo dt with
            | None => isoformat dt ++ "Z"
            | Some _ => isoformat dt
            end)
  | _ => field "timestamp" doc
  end.

(** Line 166: what the loop of the query puts under [created_at]. *)
Definition created_passed (doc : document) : value :=
  match field "created_at" doc with
  | PDatetime dt => PStr (isoformat dt ++ "Z")
  | _ => field "created_at" doc
  end.

(** The dict the loop of the query builds for a document, [tf] being its
    timestamp_formatted. *)
Definition element_for (py_str : value -> string) (doc : document)
    (tf : string) : dict :=
  [("_id", PStr (py_str (doc_id doc)));
   ("action", field "action" doc);
   ("author", field "author" doc);
   ("to_branch", field "to_branch" doc);
   ("from_branch", field "from_branch" doc);
   ("repo", field "repo" doc);
   ("timestamp_formatted", PStr tf);
   ("timestamp", timestamp_passed doc);
   ("created_at", created_passed doc)].


(** The keys of an element of the answer, in the order the response has
    them. *)
Definition event_keys : list string :=
  ["_id"; "action"; "author"; "created_at"; "from_branch"; "repo";
   "timestamp"; "timestamp_formatted"; "to_branch"].

(** The fields the query copies from the document. *)
Definition copied_keys : list string :=
  ["action"; "author"; "to_branch"; "from_branch"; "repo"].

(** [out] is what the response holds for the document [doc] the store
    handed back, timestamp_formatted apart. *)
Definition reshaped (py_str : value -> string) (doc : document) (out : dict)
  : Prop :=
  map fst out = event_keys /\
  (forall k, In k copied_keys -> lookup k out = Some (json_of (field k doc))) /\
  lookup "_id" out = Some (PStr (py_str (doc_id doc))) /\
  (forall dt, field "timestamp" doc = PDatetime dt ->
     lookup "timestamp" out
     = Some (PStr (match dt_tzinfo dt with
                   | None => isoformat dt ++ "Z"
                   | Some _ => isoformat dt
                   end))) /\
  ((forall dt, field "timestamp" doc <> PDatetime dt) ->
     lookup "timestamp" out = Some (json_of (field "timestamp" doc))) /\
  (forall dt, field "created_at" doc = PDatetime dt ->
     lookup "created_at" out = Some (PStr (isoformat dt ++ "Z"))) /\
  ((forall dt, field "created_at" doc <> PDatetime dt) ->
     lookup "created_at" out = Some (json_of (field "created_at" doc))).

(** A collection of 101 push records one minute apart, stored oldest
    first. *)
Definition crowded_instant (n : nat) : datetime :=
  mkDatetime 2021 April 1 (Z.of_nat n / 60) (Z.of_nat n mod 60) 0 0 None.

Definition crowded_document (n : nat) : document :=
  mkDocument (PStr ("e" ++ Z_to_string (Z.of_nat n)))
    [("action", PStr "push");
     ("author", PStr "alice");
     ("repo", PStr "demo");
     ("from_branch", PNone);
     ("to_branch", PStr "main");
     ("timestamp", PDatetime (crowded_instant n));
     ("created_at", PDatetime (crowded_instant n))].

Definition crowded_world : world :=
  mkWorld stopped_clock 0 (map crowded_document (seq 0 101)) 101.

(** What the response holds for the [n]-th of these records. *)
Definition crowded_element (n : nat) : dict :=
  [("_id", PStr ("e" ++ Z_to_string (Z.of_nat n)));
   ("action", PStr "push");
   ("author", PStr "alice");
   ("created_at", PStr (isoformat (crowded_instant n) ++ "Z"));
   ("from_branch", PNone);
   ("repo", PStr "demo");
   ("timestamp", PStr (isoformat (crowded_instant n) ++ "Z"));
   ("timestamp_formatted",
    PStr ("01st April 2021 - " ++ (if (n <? 60)%nat then "12" else "1")
            ++ ":" ++ zpad 2 (Z.of_nat n mod 60) ++ " AM UTC"));
   ("to_branch", PStr "main")].

(** The records 100 down to 1: the newest hundred, newest first. *)
Definition crowded_answer : list dict := map crowded_element (rev (seq 1 100)).


(** A [fromisoformat] that knows one string, an instant written with the
    offset +05:30. *)
Definition offset_instant : datetime :=
  mkDatetime 2021 April 1 21 30 0 0 (Some 19800000000).

Definition offset_fromisoformat (s : string) : option datetime :=
  if String.eqb s "2021-04-01T21:30:00+05:30" then Some offset_instant
  else None.

Definition merged_at_offset : dict :=
  [("action", PStr "closed");
   ("pull_request",
    PDict [("merged", PBool true);
           ("merged_at", PStr "2021-04-01T21:30:00+05:30");
           ("merged_by", PDict [("login", PStr "carol")]);
           ("base", PDict [("ref", PStr "main")]);
           ("head", PDict [("ref", PStr "feature")])]);
   ("repository", PDict [("full_name", PStr "octo/demo")])].

(** An empty collection and a clock that reads microseconds. *)
Definition precise_world : world :=
  mkWorld (fun _ => mkDatetime 2021 April 1 21 30 0 123456 None) 0 [] 0.

(* ===================================================================== *)
(** * Properties *)
(* ===================================================================== *)

(** ** Running the monad *)

Lemma bind_Ok {A B} (m : M A) (f : A -> M B) w b w' :
  bind m f w = (Ok b, w') ->
  exists a w1, m w = (Ok a, w1) /\ f a w1 = (Ok b, w').
Proof.
  unfold bind. destruct (m w) as [[a|e] w1]; intros H.
  - exists a, w1. split; [reflexivity | exact H].
  - discriminate H.
Qed.

Lemma lift_Ok {A} (o : outcome A) w a w' :
  lift o w = (Ok a, w') -> o = Ok a /\ w' = w.
Proof. unfold lift. intros H. injection H as -> ->. split; reflexivity. Qed.

Lemma ret_Ok {A} (x : A) w a w' :
  ret x w = (Ok a, w') -> a = x /\ w' = w.
Proof. unfold ret. intros H. injection H as -> ->. split; reflexivity. Qed.

Lemma bind_lift {A B} (o : outcome A) (f : A -> M B) a w :
  o = Ok a -> bind (lift o) f w = f a w.
Proof. intros ->. reflexivity. Qed.

Lemma bind_run {A B} (m : M A) (f : A -> M B) a w w1 :
  m w = (Ok a, w1) -> bind m f w = f a w1.
Proof. unfold bind. intros ->. reflexivity. Qed.

(** One step backwards through a successful run. *)
Tactic Notation "step_lift" hyp(H) "as" ident(a) ident(E) :=
  let w1 := fresh "w" in let Ew := fresh "Ew" in
  apply bind_Ok in H; destruct H as (a & w1 & E & H);
  apply lift_Ok in E; destruct E as [E Ew]; subst w1.

Tactic Notation "step_run" hyp(H) "as" ident(a) ident(w1) ident(E) :=
  apply bind_Ok in H; destruct H as (a & w1 & E & H).

Lemma utcnow_run w : utcnow w = (Ok (naive (clock w (ticks w))), tick w).
Proof. reflexivity. Qed.

(** ** Values *)

Lemma eq_str_true v lit : eq_str v lit = true <-> v = PStr lit.
Proof.
  destruct v; simpl; try (split; [discriminate | intros H; discriminate H]).
  rewrite String.eqb_eq. split; [intros -> | intros [= ->]]; reflexivity.
Qed.

Lemma or_empty_dict d : or_empty (PDict d) = PDict d.
Proof. destruct d; reflexivity. Qed.

Lemma py_get_Ok o k dflt v :
  py_get o k dflt = Ok v -> exists d, o = PDict d /\ v = get_or k d dflt.
Proof.
  destruct o; simpl; try discriminate.
  intros [= <-]. eexists. split; reflexivity.
Qed.

Lemma truthy_str s : truthy (PStr s) = true <-> s <> "".
Proof.
  simpl. rewrite negb_true_iff, String.eqb_neq. reflexivity.
Qed.

Lemma append_assoc (a b c : string) : (a ++ b) ++ c = a ++ (b ++ c).
Proof.
  induction a as [|ch a IH]; simpl; [reflexivity | rewrite IH; reflexivity].
Qed.

(** ** String replacement *)

Lemma prefix_append a s : String.prefix a (a ++ s) = true.
Proof.
  induction a as [|c a IH]; simpl.
  - destruct s; reflexivity.
  - destruct (ascii_dec c c) as [_ | Hne]; [exact IH | contradiction].
Qed.

Lemma replace_from_skip old new t s :
  replace_from old new (String.length t) (t ++ s) = replace_from old new 0 s.
Proof.
  induction t as [|c t IH]; simpl; [reflexivity | exact IH].
Qed.

(** At an occurrence of [old] the replacement is emitted and the scan
    resumes after the occurrence. *)
Lemma str_replace_at_occurrence old new s :
  old <> "" ->
  str_replace (old ++ s) old new = new ++ str_replace s old new.
Proof.
  destruct old as [|c old]; [contradiction | intros _].
  unfold str_replace.
  change (String c old ++ s) with (String c (old ++ s)).
  cbn [replace_from].
  change (String c (old ++ s)) with (String c old ++ s).
  rewrite prefix_append.
  cbn [String.length Nat.pred].
  rewrite replace_from_skip. reflexivity.
Qed.

(** Where [old] does not occur the character is kept. *)
Lemma str_replace_elsewhere old new c s :
  old <> "" ->
  String.prefix old (String c s) = false ->
  str_replace (String c s) old new = String c (str_replace s old new).
Proof.
  destruct old as [|c' old]; [contradiction | intros _ Hp].
  unfold str_replace. cbn [replace_from]. rewrite Hp. reflexivity.
Qed.

(** ** Branch reference resolver *)

Example ref_to_branch_staging :
  ref_to_branch (PStr "refs/heads/staging") = Ok (PStr "staging").
Proof. reflexivity. Qed.

(** A missing ref and an empty ref give the word unknown. *)
Lemma ref_to_branch_falsy ref :
  truthy ref = false -> ref_to_branch ref = Ok (PStr "unknown").
Proof. unfold ref_to_branch. intros ->. reflexivity. Qed.

(** A non-empty ref that does not begin with the prefix is returned as it
    is. *)
Lemma ref_to_branch_other s :
  s <> "" -> String.prefix heads_prefix s = false ->
  ref_to_branch (PStr s) = Ok (PStr s).
Proof.
  intros Hs Hp. unfold ref_to_branch.
  apply truthy_str in Hs. rewrite Hs. simpl negb. cbv iota.
  unfold py_startswith. rewrite Hp. reflexivity.
Qed.

(** On a ref that begins with the prefix, the resolver drops it and every
    later occurrence of it too. *)
Lemma ref_to_branch_heads rest :
  ref_to_branch (PStr (heads_prefix ++ rest))
  = Ok (PStr (str_replace rest heads_prefix "")).
Proof.
  unfold ref_to_branch.
  assert (Ht : truthy (PStr (heads_prefix ++ rest)) = true) by reflexivity.
  rewrite Ht. cbn [negb]. unfold py_startswith.
  rewrite prefix_append. unfold py_replace.
  rewrite str_replace_at_occurrence by discriminate. reflexivity.
Qed.

(** C3 (fails on the code): on a ref that begins with refs/heads/ the
    resolver is to return the ref with that one leading prefix removed.
    [ref_to_branch] removes every occurrence of refs/heads/ instead: the ref
    of branch a/refs/heads/b resolves to a/b. *)
Theorem ref_to_branch_removes_inner_occurrences :
  ref_to_branch (PStr "refs/heads/a/refs/heads/b") = Ok (PStr "a/b") /\
  strip_leading heads_prefix "refs/heads/a/refs/heads/b" = "a/refs/heads/b" /\
  ref_to_branch (PStr "refs/heads/a/refs/heads/b")
    <> Ok (PStr (strip_leading heads_prefix "refs/heads/a/refs/heads/b")).
Proof.
  split; [reflexivity | split; [reflexivity | ]].
  vm_compute. discriminate.
Qed.

(** ** Timestamp utility *)

Example isoformat_example : isoformat example_instant = "2021-04-01T21:30:00".
Proof. reflexivity. Qed.

Lemma py_index_suffixes m :
  0 <= m <= 3 ->
  py_index ["st"; "nd"; "rd"] (m - 1)
  = Ok (match m with 1 => "st" | 2 => "nd" | _ => "rd" end).
Proof.
  intros Hm.
  assert (Hc : m = 0 \/ m = 1 \/ m = 2 \/ m = 3) by lia.
  destruct Hc as [-> | [-> | [-> | ->]]]; reflexivity.
Qed.

(** The list index of line 66 is always in range: no day makes
    [format_timestamp] raise. *)
Lemma ordinal_suffix_total day : exists s, ordinal_suffix day = Ok s.
Proof.
  unfold ordinal_suffix.
  destruct (((4 <=? day) && (day <=? 20)) || ((24 <=? day) && (day <=? 30))).
  - eexists; reflexivity.
  - destruct (day mod 10 <=? 3) eqn:Hle.
    + apply Z.leb_le in Hle.
      pose proof (Z.mod_pos_bound day 10 ltac:(lia)) as Hb.
      rewrite py_index_suffixes by lia. eexists; reflexivity.
    + eexists; reflexivity.
Qed.

Lemma format_datetime_total dt : exists s, format_datetime dt = Ok s.
Proof.
  unfold format_datetime.
  destruct (ordinal_suffix_total (dt_day dt)) as [sfx ->].
  eexists; reflexivity.
Qed.

(** Formatting a datetime reads no clock and leaves the world alone. *)
Lemma format_timestamp_datetime dt w :
  format_timestamp (PDatetime dt) w = (format_datetime dt, w).
Proof. reflexivity. Qed.

Lemma days_of_month (P : Z -> Prop) :
  (forall n : nat, (n < 31)%nat -> P (Z.of_nat n + 1)) ->
  forall day, 1 <= day <= 31 -> P day.
Proof.
  intros H day Hd.
  replace day with (Z.of_nat (Z.to_nat (day - 1)) + 1) by lia.
  apply H. lia.
Qed.

Lemma ordinal_suffix_by_rule day :
  1 <= day <= 31 -> ordinal_suffix day = Ok (suffix_by_rule day).
Proof.
  revert day. apply days_of_month. intros n Hn.
  do 31 (destruct n as [|n]; [vm_compute; reflexivity | ]).
  lia.
Qed.

(** The shape of every output: day on two digits, suffix, month name,
    year, hour on the 12-hour clock, minute on two digits, AM or PM and the
    UTC suffix. *)
Lemma format_datetime_shape dt :
  exists suffix hour ampm,
    ordinal_suffix (dt_day dt) = Ok suffix /\
    1 <= hour <= 12 /\
    (ampm = "AM" \/ ampm = "PM") /\
    format_datetime dt
    = Ok (zpad 2 (dt_day dt) ++ suffix ++ " " ++ month_name (dt_month dt)
            ++ " " ++ Z_to_string (dt_year dt) ++ " - " ++ Z_to_string hour
            ++ ":"
            ++ zpad 2 (dt_minute dt) ++ " " ++ ampm ++ " UTC").
Proof.
  unfold format_datetime, strftime_date.
  destruct (ordinal_suffix_total (dt_day dt)) as [suffix ->].
  exists suffix,
    (if dt_hour dt mod 12 =? 0 then 12 else dt_hour dt mod 12),
    (if dt_hour dt <? 12 then "AM" else "PM").
  split; [reflexivity | split; [ | split]].
  - pose proof (Z.mod_pos_bound (dt_hour dt) 12 ltac:(lia)) as Hb.
    destruct (Z.eqb_spec (dt_hour dt mod 12) 0); lia.
  - destruct (dt_hour dt <? 12); [left | right]; reflexivity.
  - rewrite !append_assoc. reflexivity.
Qed.

Lemma minutes_of_hour (P : Z -> Prop) :
  (forall n : nat, (n < 60)%nat -> P (Z.of_nat n)) ->
  forall m, 0 <= m <= 59 -> P m.
Proof.
  intros H m Hm. replace m with (Z.of_nat (Z.to_nat m)) by lia.
  apply H. lia.
Qed.

(** The minute of a datetime is printed on exactly two digits. *)
Lemma zpad_minute m : 0 <= m <= 59 -> String.length (zpad 2 m) = 2%nat.
Proof.
  revert m. apply minutes_of_hour. intros n Hn.
  do 60 (destruct n as [|n]; [reflexivity | ]).
  lia.
Qed.

(** C5 (fails on the code): the first day of April 2021 at 21:30 is to be
    rendered as 1st April 2021 - 9:30 PM UTC, the string of the function's
    own docstring.  [format_timestamp] pads the day to two digits. *)
Theorem format_timestamp_pads_day :
  forall w,
    format_timestamp (PDatetime example_instant) w
    = (Ok "01st April 2021 - 9:30 PM UTC", w) /\
    "01st April 2021 - 9:30 PM UTC" <> "1st April 2021 - 9:30 PM UTC".
Proof.
  intros w. split; [reflexivity | discriminate].
Qed.

(** C6: for a day of the month from 1 to 31 the suffix that
    [format_timestamp] puts after the day number is th on days 11 to 20 and
    otherwise goes by the last digit: 1 st, 2 nd, 3 rd, anything else th. *)
Theorem format_timestamp_suffix_rule :
  forall dt w,
    1 <= dt_day dt <= 31 ->
    ordinal_suffix (dt_day dt) = Ok (suffix_by_rule (dt_day dt)) /\
    (exists rest,
        format_timestamp (PDatetime dt) w
        = (Ok (zpad 2 (dt_day dt) ++ suffix_by_rule (dt_day dt) ++ " " ++ rest),
           w)) /\
    (11 <= dt_day dt <= 20 -> suffix_by_rule (dt_day dt) = "th") /\
    (~ 11 <= dt_day dt <= 20 ->
       (dt_day dt mod 10 = 1 -> suffix_by_rule (dt_day dt) = "st") /\
       (dt_day dt mod 10 = 2 -> suffix_by_rule (dt_day dt) = "nd") /\
       (dt_day dt mod 10 = 3 -> suffix_by_rule (dt_day dt) = "rd") /\
       (dt_day dt mod 10 <> 1 -> dt_day dt mod 10 <> 2 ->
        dt_day dt mod 10 <> 3 -> suffix_by_rule (dt_day dt) = "th")).
Proof.
  intros dt w Hday.
  pose proof (ordinal_suffix_by_rule _ Hday) as Hs.
  split; [exact Hs | split; [ | split]].
  - rewrite format_timestamp_datetime. unfold format_datetime. rewrite Hs.
    unfold strftime_date. eexists.
    rewrite !append_assoc. reflexivity.
  - intros H. unfold suffix_by_rule.
    replace ((11 <=? dt_day dt) && (dt_day dt <=? 20)) with true; [reflexivity|].
    symmetry. apply andb_true_iff. split; apply Z.leb_le; lia.
  - intros H. unfold suffix_by_rule.
    replace ((11 <=? dt_day dt) && (dt_day dt <=? 20)) with false.
    2:{ symmetry. apply andb_false_iff.
        destruct (Z.leb_spec 11 (dt_day dt)); [right | left; reflexivity].
        apply Z.leb_gt. lia. }
    repeat split.
    + intros ->. reflexivity.
    + intros ->. reflexivity.
    + intros ->. reflexivity.
    + intros H1 H2 H3. destruct (dt_day dt mod 10) as [|p|p]; try reflexivity.
      destruct p as [[p|p|]|[p|p|]|]; try reflexivity; congruence.
Qed.

Lemma format_timestamp_suffix_rule_witness :
  1 <= dt_day (mkDatetime 2021 April 21 9 5 0 0 None) <= 31 /\
  ordinal_suffix 21 = Ok "st".
Proof.
  split; [simpl; lia | ].
  exact (proj1 (format_timestamp_suffix_rule
                  (mkDatetime 2021 April 21 9 5 0 0 None)
                  (mkWorld (fun _ => example_instant) 0 [] 0)
                  ltac:(simpl; lia))).
Defined.

(** ** Reading nested fields *)

Lemma field_at_one k d dflt : field_at [k] (PDict d) dflt = get_or k d dflt.
Proof.
  unfold field_at, get_or. simpl. destruct (lookup k d); reflexivity.
Qed.

Lemma field_at_or_empty k d p :
  or_empty (get_or k d PNone) = PDict p ->
  forall k2 rest dflt,
    field_at (k :: k2 :: rest) (PDict d) dflt
    = field_at (k2 :: rest) (PDict p) dflt.
Proof.
  intros Hp k2 rest dflt. unfold field_at, get_or in *. simpl.
  destruct (lookup k d) as [h|].
  - unfold or_empty in Hp. destruct (truthy h) eqn:Ht.
    + subst h. reflexivity.
    + injection Hp as <-. simpl.
      destruct h; try reflexivity.
      destruct d0; [reflexivity | discriminate Ht].
  - unfold or_empty in Hp. simpl in Hp. injection Hp as <-. reflexivity.
Qed.

Lemma field_at_default k d holder k2 dflt v :
  py_get (PDict d) k (PDict []) = Ok holder ->
  py_get holder k2 dflt = Ok v ->
  v = field_at [k; k2] (PDict d) dflt.
Proof.
  simpl. intros [= <-]. unfold get_or, field_at. simpl.
  destruct (lookup k d) as [h|].
  - intros H. apply py_get_Ok in H. destruct H as (d2 & -> & ->).
    unfold get_or. destruct (lookup k2 d2); reflexivity.
  - simpl. intros [= <-]. reflexivity.
Qed.

Lemma field_at_or k d holder k2 dflt v :
  py_get (PDict d) k PNone = Ok holder ->
  py_get (or_empty holder) k2 dflt = Ok v ->
  v = field_at [k; k2] (PDict d) dflt.
Proof.
  simpl. intros [= <-] H.
  apply py_get_Ok in H. destruct H as (p & Hp & ->).
  rewrite (field_at_or_empty _ _ _ Hp). unfold field_at. simpl.
  unfold get_or. destruct (lookup k2 p); reflexivity.
Qed.

Lemma field_at_cons k d p :
  or_empty (get_or k d PNone) = PDict p ->
  forall k2 rest dflt,
    field_at (k2 :: rest) (PDict p) dflt = field_at (k :: k2 :: rest) (PDict d) dflt.
Proof. intros H k2 rest dflt. symmetry. apply field_at_or_empty, H. Qed.

Lemma login_chain_Ok d p who v :
  or_empty (get_or "pull_request" d PNone) = PDict p ->
  login_chain (PDict p) (PDict d) who = Ok v ->
  v = chosen_login who (PDict d).
Proof.
  intros Hp. unfold login_chain, chosen_login.
  destruct (py_get (PDict p) who PNone) as [holder|] eqn:E1; [|discriminate].
  destruct (py_get (or_empty holder) "login" PNone) as [l1|] eqn:E2; [|discriminate].
  pose proof (field_at_or _ _ _ _ _ _ E1 E2) as H1.
  rewrite (field_at_cons _ _ _ Hp) in H1. rewrite <- H1.
  destruct (truthy l1).
  - intros [= <-]. reflexivity.
  - destruct (py_get (PDict d) "sender" PNone) as [sender|] eqn:E3; [|discriminate].
    destruct (py_get (or_empty sender) "login" PNone) as [l2|] eqn:E4; [|discriminate].
    rewrite <- (field_at_or _ _ _ _ _ _ E3 E4).
    intros [= <-]. reflexivity.
Qed.

(** ** Pull request handler: what a successful run returns *)

Lemma resolved_Ok d p side holder ref v :
  or_empty (get_or "pull_request" d PNone) = PDict p ->
  py_get (PDict p) side (PDict []) = Ok holder ->
  py_get holder "ref" (PStr "") = Ok ref ->
  ref_to_branch ref = Ok v ->
  resolved side (PDict d) = Ok v.
Proof.
  intros Hp E1 E2 E3. unfold resolved.
  rewrite <- (field_at_cons _ _ _ Hp).
  rewrite <- (field_at_default _ _ _ _ _ _ E1 E2). exact E3.
Qed.

Lemma handle_pull_request_Ok fromiso payload w res w' :
  handle_pull_request fromiso payload w = (Ok res, w') ->
  exists d,
    payload = PDict d /\
    let action := field_at ["action"] payload PNone in
    let merged := field_at ["pull_request"; "merged"] payload (PBool false) in
    (eq_str action "closed" && truthy merged = true /\
     exists tb fb ts created,
       resolved "base" payload = Ok tb /\
       resolved "head" payload = Ok fb /\
       res = Some (pr_record "merge" "merged_by" payload tb fb ts created))
    \/
    (eq_str action "closed" && truthy merged = false /\
     eq_str action "opened" || eq_str action "synchronize" = true /\
     exists tb fb ts created,
       resolved "base" payload = Ok tb /\
       resolved "head" payload = Ok fb /\
       res = Some (pr_record "pull_request" "user" payload tb fb ts created))
    \/
    (eq_str action "closed" && truthy merged = false /\
     eq_str action "opened" || eq_str action "synchronize" = false /\
     res = None /\ w' = w).
Proof.
  unfold handle_pull_request. intros H.
  step_lift H as pull_request E. step_lift H as v0 E0. step_lift H as v1 E1.
  apply py_get_Ok in E. destruct E as (d & -> & ->).
  exists d. split; [reflexivity|].
  pose proof E1 as E1'. apply py_get_Ok in E1'. destruct E1' as (p & Hp & _).
  rewrite Hp in *.
  assert (Hact : field_at ["action"] (PDict d) PNone = v0).
  { simpl in E0. injection E0 as <-. unfold field_at, get_or. simpl.
    destruct (lookup "action" d); reflexivity. }
  assert (Hmer : field_at ["pull_request"; "merged"] (PDict d) (PBool false) = v1).
  { rewrite <- (field_at_cons _ _ _ Hp). simpl in E1. injection E1 as <-.
    unfold field_at, get_or. simpl. destruct (lookup "merged" p); reflexivity. }
  cbv zeta. rewrite Hact, Hmer.
  destruct (eq_str v0 "closed" && truthy v1) eqn:Hm.
  - left. split; [reflexivity|].
    step_lift H as base Ebase. step_lift H as head Ehead.
    step_lift H as base_ref Ebr. step_lift H as tb Etb.
    step_lift H as head_ref Ehr. step_lift H as fb Efb.
    step_lift H as author Eauthor. step_lift H as tstr Etstr.
    step_run H as ts w1 Rts.
    step_lift H as repository Erepository. step_lift H as repo Erepo.
    step_run H as created w2 Rcreated.
    apply ret_Ok in H. destruct H as [-> ->].
    exists tb, fb, ts, created.
    split; [exact (resolved_Ok _ _ _ _ _ _ Hp Ebase Ebr Etb)|].
    split; [exact (resolved_Ok _ _ _ _ _ _ Hp Ehead Ehr Efb)|].
    unfold pr_record.
    rewrite <- (login_chain_Ok _ _ _ _ Hp Eauthor).
    rewrite <- (field_at_or _ _ _ _ _ _ Erepository Erepo). reflexivity.
  - right.
    destruct (eq_str v0 "opened" || eq_str v0 "synchronize") eqn:Ho.
    + left. split; [reflexivity|]. split; [reflexivity|].
      step_lift H as base Ebase. step_lift H as head Ehead.
      step_lift H as base_ref Ebr. step_lift H as tb Etb.
      step_lift H as head_ref Ehr. step_lift H as fb Efb.
      step_lift H as author Eauthor. step_lift H as tstr Etstr.
      step_run H as ts w1 Rts.
      step_lift H as repository Erepository. step_lift H as repo Erepo.
      step_run H as created w2 Rcreated.
      apply ret_Ok in H. destruct H as [-> ->].
      exists tb, fb, ts, created.
      split; [exact (resolved_Ok _ _ _ _ _ _ Hp Ebase Ebr Etb)|].
      split; [exact (resolved_Ok _ _ _ _ _ _ Hp Ehead Ehr Efb)|].
      unfold pr_record.
      rewrite <- (login_chain_Ok _ _ _ _ Hp Eauthor).
      rewrite <- (field_at_or _ _ _ _ _ _ Erepository Erepo). reflexivity.
    + right. split; [reflexivity|]. split; [reflexivity|].
      apply ret_Ok in H. destruct H as [-> ->]. split; reflexivity.
Qed.

(** ** Reading a dictionary *)

Lemma get_or_found k d dflt v : lookup k d = Some v -> get_or k d dflt = v.
Proof. unfold get_or. intros ->. reflexivity. Qed.

Lemma get_or_missing k d dflt : lookup k d = None -> get_or k d dflt = dflt.
Proof. unfold get_or. intros ->. reflexivity. Qed.

Lemma py_get_dict d k dflt : py_get (PDict d) k dflt = Ok (get_or k d dflt).
Proof. reflexivity. Qed.

(** ** Pull request handler: when it returns *)

Lemma ref_to_branch_Ok_iff ref :
  (exists v, ref_to_branch ref = Ok v) <-> falsy_or is_str ref = true.
Proof.
  unfold ref_to_branch, falsy_or.
  destruct (truthy ref) eqn:Ht; cbn [negb orb].
  - destruct ref as [| | | |s| | | |]; cbn [py_startswith is_str];
      try (split; [intros [v H]; discriminate H | discriminate]).
    split; [reflexivity | intros _].
    destruct (String.prefix heads_prefix s); eexists; reflexivity.
  - split; [reflexivity | intros _; eexists; reflexivity].
Qed.

Lemma side_reads_iff side pr :
  (exists holder ref v,
      py_get (PDict pr) side (PDict []) = Ok holder /\
      py_get holder "ref" (PStr "") = Ok ref /\
      ref_to_branch ref = Ok v)
  <-> side_reads side pr = true.
Proof.
  unfold side_reads, absent_or. cbn [py_get]. unfold get_or at 1.
  destruct (lookup side pr) as [h|].
  - split.
    + intros (holder & ref & v & [= <-] & Href & Hv).
      apply py_get_Ok in Href. destruct Href as (hd & -> & ->).
      cbn [is_dict_with]. apply ref_to_branch_Ok_iff. exists v. exact Hv.
    + destruct h as [| | | | | |hd| |]; cbn [is_dict_with]; try discriminate.
      intros H. apply ref_to_branch_Ok_iff in H. destruct H as [v Hv].
      exists (PDict hd), (get_or "ref" hd (PStr "")), v.
      split; [reflexivity | split; [reflexivity | exact Hv]].
  - split; [reflexivity | intros _].
    exists (PDict []), (PStr ""), (PStr "unknown").
    split; [reflexivity | split; reflexivity].
Qed.

Lemma or_empty_get_iff v k dflt :
  (exists x, py_get (or_empty v) k dflt = Ok x) <-> falsy_or is_dict v = true.
Proof.
  unfold falsy_or, or_empty. destruct (truthy v) eqn:Ht; cbn [negb orb].
  - destruct v; cbn; try (split; [intros [x H]; discriminate H | discriminate]).
    split; [reflexivity | intros _; eexists; reflexivity].
  - split; [reflexivity | intros _; eexists; reflexivity].
Qed.

Lemma login_reads_iff who pr d :
  (exists v, login_chain (PDict pr) (PDict d) who = Ok v)
  <-> login_reads who pr d = true.
Proof.
  unfold login_chain, login_reads. cbn [py_get].
  destruct (or_empty (get_or who pr PNone)) as [| | | | | |holder| |];
    cbn [py_get];
    try (split; [intros [v H]; discriminate H | discriminate]).
  destruct (truthy (get_or "login" holder PNone)); cbn [orb].
  - split; [reflexivity | intros _; eexists; reflexivity].
  - rewrite <- (or_empty_get_iff (get_or "sender" d PNone) "login" PNone).
    split.
    + intros [v H].
      destruct (py_get (or_empty (get_or "sender" d PNone)) "login" PNone)
        as [x|] eqn:E; [exists x; reflexivity | discriminate H].
    + intros [x ->]. eexists; reflexivity.
Qed.

Section Returns.

Variable fromisoformat : string -> option datetime.

Lemma parse_returns_iff v w :
  (exists dt w', parse_github_timestamp fromisoformat v w = (Ok dt, w'))
  <-> time_reads v = true.
Proof.
  unfold time_reads, falsy_or, parse_github_timestamp.
  destruct (truthy v) eqn:Ht; cbn [negb orb].
  - destruct v as [| | | |s| | |dt|]; cbn [is_str is_datetime orb];
      try (split; [intros (dt' & w' & H); discriminate H | discriminate]).
    + split; [reflexivity | intros _].
      unfold try_except, bind, lift, py_replace.
      destruct (fromisoformat (str_replace s "Z" "+00:00"));
        do 2 eexists; reflexivity.
    + split; [reflexivity | intros _]. do 2 eexists; reflexivity.
  - split; [reflexivity | intros _]. do 2 eexists; reflexivity.
Qed.

Lemma merged_at_returns_iff v w :
  (exists dt w',
      (if truthy v then parse_github_timestamp fromisoformat v else utcnow) w
      = (Ok dt, w'))
  <-> time_reads v = true.
Proof.
  destruct (truthy v) eqn:Ht.
  - apply parse_returns_iff.
  - unfold time_reads, falsy_or. rewrite Ht.
    split; [reflexivity | intros _]. do 2 eexists; reflexivity.
Qed.

(** A branch that builds a record returns exactly when its reads can be
    evaluated. *)
Lemma record_branch_returns_iff tag who time_key (guarded : bool) pr d w :
  (exists res w',
      (base <- lift (py_get (PDict pr) "base" (PDict [])) ;;
       head <- lift (py_get (PDict pr) "head" (PDict [])) ;;
       base_ref <- lift (py_get base "ref" (PStr "")) ;;
       to_branch <- lift (ref_to_branch base_ref) ;;
       head_ref <- lift (py_get head "ref" (PStr "")) ;;
       from_branch <- lift (ref_to_branch head_ref) ;;
       author <- lift (login_chain (PDict pr) (PDict d) who) ;;
       ts_str <- lift (py_get (PDict pr) time_key PNone) ;;
       ts <- (if guarded
              then (if truthy ts_str
                    then parse_github_timestamp fromisoformat ts_str
                    else utcnow)
              else parse_github_timestamp fromisoformat ts_str) ;;
       repository <- lift (py_get (PDict d) "repository" PNone) ;;
       repo <- lift (py_get (or_empty repository) "full_name" (PStr "")) ;;
       created_at <- utcnow ;;
       ret (Some [("action", PStr tag);
                  ("author", author);
                  ("to_branch", to_branch);
                  ("from_branch", from_branch);
                  ("timestamp", PDatetime ts);
                  ("repo", repo);
                  ("created_at", PDatetime created_at)])) w
      = (Ok res, w'))
  <-> record_reads who time_key pr d = true.
Proof.
  unfold record_reads. rewrite !andb_true_iff.
  rewrite <- !side_reads_iff, <- login_reads_iff.
  rewrite <- (or_empty_get_iff (get_or "repository" d PNone) "full_name"
                (PStr "")).
  assert (Htime : forall v,
             (exists dt w',
                 (if guarded
                  then (if truthy v
                        then parse_github_timestamp fromisoformat v
                        else utcnow)
                  else parse_github_timestamp fromisoformat v) w
                 = (Ok dt, w'))
             <-> time_reads v = true).
  { intros v. destruct guarded;
      [apply merged_at_returns_iff | apply parse_returns_iff]. }
  rewrite <- (Htime (get_or time_key pr PNone)).
  split.
  - intros (res & w' & H).
    step_lift H as base Ebase. step_lift H as head_ Ehead.
    step_lift H as base_ref Ebr. step_lift H as tb Etb.
    step_lift H as head_ref Ehr. step_lift H as fb Efb.
    step_lift H as author Eauthor. step_lift H as tstr Etstr.
    step_run H as ts w1 Rts.
    step_lift H as repository Erepository. step_lift H as repo Erepo.
    cbn [py_get] in Etstr, Erepository.
    injection Etstr as <-. injection Erepository as <-.
    repeat split.
    + exists base, base_ref, tb. repeat split; assumption.
    + exists head_, head_ref, fb. repeat split; assumption.
    + exists author. exact Eauthor.
    + exists ts, w1. exact Rts.
    + exists repo. exact Erepo.
  - intros ((((Hb & Hh) & Hl) & Ht) & Hr).
    destruct Hb as (base & base_ref & tb & Eb1 & Eb2 & Eb3).
    destruct Hh as (head_ & head_ref & fb & Eh1 & Eh2 & Eh3).
    destruct Hl as (author & Ea).
    destruct Ht as (ts & w1 & Hts).
    destruct Hr as (repo & Hrepo).
    rewrite (bind_lift _ _ _ _ Eb1), (bind_lift _ _ _ _ Eh1),
      (bind_lift _ _ _ _ Eb2), (bind_lift _ _ _ _ Eb3),
      (bind_lift _ _ _ _ Eh2), (bind_lift _ _ _ _ Eh3),
      (bind_lift _ _ _ _ Ea), (bind_lift _ _ _ _ (py_get_dict _ _ _)).
    rewrite (bind_run _ _ _ _ _ Hts).
    rewrite (bind_lift _ _ _ _ (py_get_dict _ _ _)),
      (bind_lift _ _ _ _ Hrepo).
    rewrite (bind_run _ _ _ _ _ (utcnow_run w1)).
    do 2 eexists; reflexivity.
Qed.

Lemma handle_pull_request_returns_iff d w :
  (exists res w',
      handle_pull_request fromisoformat (PDict d) w = (Ok res, w'))
  <-> accepted_shapes d = true.
Proof.
  unfold handle_pull_request, accepted_shapes.
  rewrite (bind_lift _ _ _ _ (py_get_dict _ _ _)). cbv zeta.
  destruct (or_empty (get_or "pull_request" d PNone))
    as [| | | | | |pr| |];
    try (split; [intros (res & w' & H); discriminate H | discriminate]).
  rewrite (bind_lift _ _ _ _ (py_get_dict _ _ _)).
  rewrite (bind_lift _ _ _ _ (py_get_dict _ _ _)).
  destruct (eq_str (get_or "action" d PNone) "closed"
            && truthy (get_or "merged" pr (PBool false))).
  - apply (record_branch_returns_iff "merge" "merged_by" "merged_at" true).
  - destruct (eq_str (get_or "action" d PNone) "opened"
              || eq_str (get_or "action" d PNone) "synchronize").
    + apply (record_branch_returns_iff "pull_request" "user" "created_at"
               false).
    + split; [reflexivity | intros _]. do 2 eexists; reflexivity.
Qed.

End Returns.

(** ** Push handler *)

Lemma handle_push_Ok payload w r w' :
  handle_push payload w = (Ok r, w') ->
  exists d s ts created,
    payload = PDict d /\
    field_at ["ref"] payload (PStr "") = PStr s /\
    r = [("action", PStr "push");
         ("author", field_at ["pusher"; "name"] payload (PStr "unknown-user"));
         ("repo", field_at ["repository"; "name"] payload (PStr "unknown-repo"));
         ("from_branch", PNone);
         ("to_branch", PStr (str_replace s "refs/heads/" ""));
         ("timestamp", PDatetime ts);
         ("created_at", PDatetime created)].
Proof.
  unfold handle_push. intros H.
  step_lift H as repository Erepository. step_lift H as repo Erepo.
  step_lift H as pusher_obj Epusher_obj. step_lift H as pusher Epusher.
  step_lift H as ref Eref. step_lift H as branch Ebranch.
  step_run H as ts w1 Rts. step_run H as created w2 Rcreated.
  apply ret_Ok in H. destruct H as [-> ->].
  pose proof Eref as Ed. apply py_get_Ok in Ed. destruct Ed as (d & -> & Hr).
  destruct ref; try discriminate Ebranch.
  simpl in Ebranch. injection Ebranch as <-.
  exists d, s, ts, created. split; [reflexivity|]. split.
  - unfold field_at. simpl. unfold get_or in Hr.
    destruct (lookup "ref" d); congruence.
  - rewrite <- (field_at_default _ _ _ _ _ _ Epusher_obj Epusher).
    rewrite <- (field_at_default _ _ _ _ _ _ Erepository Erepo).
    reflexivity.
Qed.

(** C2 (fails on the code): normalisation is to complete without raising
    on every payload map, fields that are null or of an unexpected shape
    included.  A null [ref] makes [handle_push] raise, a null
    [pull_request.base] makes [handle_pull_request] raise, and the webhook
    route lets the exception through. *)
Theorem normalizers_raise_on_null_fields :
  forall fromisoformat w,
    handle_push (PDict [("ref", PNone)]) w = (Raise AttributeError, w) /\
    handle_pull_request fromisoformat
      (PDict [("action", PStr "opened");
              ("pull_request", PDict [("base", PNone)])]) w
    = (Raise AttributeError, w) /\
    webhook fromisoformat "push" (Some (PDict [("ref", PNone)])) w
    = (Raise AttributeError, w).
Proof. intros fromisoformat w. repeat split. Qed.

Lemma classified_record tag who payload tb fb ts created t :
  classified (Some (pr_record tag who payload tb fb ts created)) t <-> t = tag.
Proof.
  split.
  - intros (r & [= <-] & H). simpl in H. congruence.
  - intros ->. eexists. split; reflexivity.
Qed.

Lemma classified_None t : ~ classified None t.
Proof. intros (r & H & _). discriminate H. Qed.

(** C1 (as amended): the normaliser returns on a pull_request payload
    exactly when the payload has a shape the code accepts: pull_request is
    absent, falsy or an object, and the reads of the branch the action
    selects can be evaluated, null and absent fields included wherever the
    code reads them null-safely.  On every payload on which it returns,
    the result is a record classified merge exactly when the action is
    closed and pull_request.merged is truthy, a record classified
    pull_request exactly when the action is opened or synchronize, and the
    Ignore outcome exactly in every other case. *)
Theorem pull_request_classification :
  forall fromisoformat d w,
    let action := field_at ["action"] (PDict d) PNone in
    let merged := field_at ["pull_request"; "merged"] (PDict d) (PBool false) in
    ((exists res w',
         handle_pull_request fromisoformat (PDict d) w = (Ok res, w'))
     <-> accepted_shapes d = true) /\
    (forall res w',
        handle_pull_request fromisoformat (PDict d) w = (Ok res, w') ->
        (classified res "merge"
         <-> action = PStr "closed" /\ truthy merged = true) /\
        (classified res "pull_request"
         <-> action = PStr "opened" \/ action = PStr "synchronize") /\
        (res = None
         <-> ~ (action = PStr "closed" /\ truthy merged = true) /\
             action <> PStr "opened" /\ action <> PStr "synchronize")).
Proof.
  intros fromisoformat d w action merged.
  split; [apply handle_pull_request_returns_iff|].
  intros res w' H.
  apply handle_pull_request_Ok in H.
  destruct H as (d' & Hd & H). injection Hd as <-.
  fold action merged in H. cbv zeta in H.
  assert (Hclosed : eq_str action "closed" && truthy merged = true
                    <-> action = PStr "closed" /\ truthy merged = true).
  { rewrite andb_true_iff, eq_str_true. reflexivity. }
  assert (Hopen : eq_str action "opened" || eq_str action "synchronize" = true
                  <-> action = PStr "opened" \/ action = PStr "synchronize").
  { rewrite orb_true_iff, !eq_str_true. reflexivity. }
  assert (Hne : "merge" <> "pull_request") by discriminate.
  destruct H as [(Hm & tb & fb & ts & created & _ & _ & ->)
                | [(Hm & Ho & tb & fb & ts & created & _ & _ & ->)
                  | (Hm & Ho & -> & _)]].
  - apply Hclosed in Hm. destruct Hm as [Ha Ht].
    rewrite !classified_record.
    assert (Hno : ~ (action = PStr "opened" \/ action = PStr "synchronize")).
    { rewrite Ha. intros [E | E]; discriminate E. }
    split; [ | split].
    + split; [intros _; split; assumption | reflexivity].
    + split; [intros E; symmetry in E; contradiction | intros E; contradiction].
    + split; [discriminate | ].
      intros (Hn & _). exfalso. apply Hn. split; assumption.
  - assert (Hnc : ~ (action = PStr "closed" /\ truthy merged = true)).
    { intros Hc. apply Hclosed in Hc. congruence. }
    apply Hopen in Ho.
    rewrite !classified_record.
    split; [ | split].
    + split; [intros E; contradiction | intros Hc; contradiction].
    + split; [intros _; exact Ho | reflexivity].
    + split; [discriminate | ].
      intros (_ & H1 & H2). destruct Ho; contradiction.
  - assert (Hnc : ~ (action = PStr "closed" /\ truthy merged = true)).
    { intros Hc. apply Hclosed in Hc. congruence. }
    assert (Hno : ~ (action = PStr "opened" \/ action = PStr "synchronize")).
    { intros Hc. apply Hopen in Hc. congruence. }
    split; [ | split].
    + split; [intros Hc; exfalso; exact (classified_None _ Hc) | contradiction].
    + split; [intros Hc; exfalso; exact (classified_None _ Hc) | contradiction].
    + split; [ | reflexivity].
      intros _. split; [exact Hnc | ].
      split; intros E; apply Hno; [left | right]; exact E.
Qed.

Lemma pull_request_classification_witness :
  accepted_shapes opened_as_sent = true /\
  (exists res w',
      handle_pull_request example_fromisoformat (PDict opened_as_sent)
        empty_world = (Ok res, w')) /\
  classified
    (Some (pr_record "merge" "merged_by" (PDict merged_by_carol)
             (PStr "unknown") (PStr "unknown")
             example_instant example_instant)) "merge".
Proof.
  split; [reflexivity | split].
  - exact (proj2 (proj1 (pull_request_classification
                           example_fromisoformat opened_as_sent empty_world))
             eq_refl).
  - apply (proj1 (proj2 (pull_request_classification
                           rejecting_fromisoformat merged_by_carol
                           empty_world)
                        _ (tick (tick empty_world)) eq_refl)).
    split; reflexivity.
Defined.

(** C1 (as stated) fails: with the action closed and pull_request.merged
    the string yes, which is not the boolean true, the normaliser yields a
    record classified merge. *)
Lemma merge_without_merged_true :
  fst (handle_pull_request rejecting_fromisoformat (PDict merged_yes)
         empty_world)
  = Ok (Some (pr_record "merge" "merged_by" (PDict merged_yes)
                (PStr "unknown") (PStr "unknown")
                example_instant example_instant)) /\
  classified (Some (pr_record "merge" "merged_by" (PDict merged_yes)
                      (PStr "unknown") (PStr "unknown")
                      example_instant example_instant)) "merge" /\
  field_at ["pull_request"; "merged"] (PDict merged_yes) (PBool false)
  <> PBool true.
Proof.
  split; [reflexivity | split].
  - eexists. split; reflexivity.
  - discriminate.
Qed.




(** ** Authors *)

(** C7 (as stated) fails: a push whose pusher.name is the empty string
    yields a record whose author is the empty string. *)
Lemma push_author_empty :
  fst (handle_push (PDict pusher_unnamed) empty_world)
  = Ok [("action", PStr "push");
        ("author", PStr "");
        ("repo", PStr "unknown-repo");
        ("from_branch", PNone);
        ("to_branch", PStr "main");
        ("timestamp", PDatetime example_instant);
        ("created_at", PDatetime example_instant)].
Proof. reflexivity. Qed.

Lemma chosen_login_truthy who payload : truthy (chosen_login who payload) = true.
Proof.
  unfold chosen_login.
  destruct (truthy (field_at ["pull_request"; who; "login"] payload PNone)) eqn:H1;
    [exact H1 | ].
  destruct (truthy (field_at ["sender"; "login"] payload PNone)) eqn:H2;
    [exact H2 | reflexivity].
Qed.

(** C7 (as amended): the author of a merge record is the first truthy of
    pull_request.merged_by.login, sender.login and the literal Unknown, and
    that of a pull_request record the first truthy of
    pull_request.user.login, sender.login and Unknown, so it is never empty
    or null; the author of a push record is pusher.name, and the literal
    unknown-user when pusher or its name is absent. *)
Theorem record_author :
  forall fromisoformat payload w,
    (forall r w',
        handle_push payload w = (Ok r, w') ->
        lookup "author" r
        = Some (field_at ["pusher"; "name"] payload (PStr "unknown-user")) /\
        (at_path ["pusher"; "name"] payload = None ->
         lookup "author" r = Some (PStr "unknown-user"))) /\
    (forall r w',
        handle_pull_request fromisoformat payload w = (Ok (Some r), w') ->
        exists who a,
          (classified (Some r) "merge" /\ who = "merged_by" \/
           classified (Some r) "pull_request" /\ who = "user") /\
          lookup "author" r = Some a /\
          a = chosen_login who payload /\
          truthy a = true /\
          a <> PStr "" /\ a <> PNone).
Proof.
  intros fromisoformat payload w. split.
  - intros r w' H. apply handle_push_Ok in H.
    destruct H as (d & s & ts & created & -> & _ & ->).
    split; [reflexivity | ].
    intros Habs. simpl. unfold field_at. rewrite Habs. reflexivity.
  - intros r w' H. apply handle_pull_request_Ok in H.
    destruct H as (d & -> & H). cbv zeta in H.
    assert (Hnn : forall who,
               chosen_login who (PDict d) <> PStr "" /\
               chosen_login who (PDict d) <> PNone).
    { intros who. pose proof (chosen_login_truthy who (PDict d)) as Ht.
      split; intros E; rewrite E in Ht; discriminate Ht. }
    destruct H as [(_ & tb & fb & ts & created & _ & _ & Hr)
                  | [(_ & _ & tb & fb & ts & created & _ & _ & Hr)
                    | (_ & _ & Hr & _)]];
      [ | | discriminate Hr]; injection Hr as ->.
    + exists "merged_by", (chosen_login "merged_by" (PDict d)).
      split; [left; split; [apply classified_record|]; reflexivity | ].
      split; [reflexivity | split; [reflexivity | ]].
      split; [apply chosen_login_truthy | apply Hnn].
    + exists "user", (chosen_login "user" (PDict d)).
      split; [right; split; [apply classified_record|]; reflexivity | ].
      split; [reflexivity | split; [reflexivity | ]].
      split; [apply chosen_login_truthy | apply Hnn].
Qed.

Lemma record_author_witness :
  lookup "author"
    [("action", PStr "push");
     ("author", PStr "alice");
     ("repo", PStr "repo1");
     ("from_branch", PNone);
     ("to_branch", PStr "main");
     ("timestamp", PDatetime example_instant);
     ("created_at", PDatetime example_instant)]
  = Some (PStr "alice") /\
  exists who a,
    (classified
       (Some (pr_record "merge" "merged_by" (PDict merged_by_carol)
                (PStr "unknown") (PStr "unknown")
                example_instant example_instant)) "merge" /\
     who = "merged_by" \/
     classified
       (Some (pr_record "merge" "merged_by" (PDict merged_by_carol)
                (PStr "unknown") (PStr "unknown")
                example_instant example_instant)) "pull_request" /\
     who = "user") /\
    lookup "author"
      (pr_record "merge" "merged_by" (PDict merged_by_carol)
         (PStr "unknown") (PStr "unknown") example_instant example_instant)
    = Some a /\
    a = chosen_login who (PDict merged_by_carol) /\
    truthy a = true /\ a <> PStr "" /\ a <> PNone.
Proof.
  split.
  - exact (proj1 (proj1 (record_author rejecting_fromisoformat
                           (PDict push_by_alice) empty_world)
                        _ (tick (tick empty_world)) eq_refl)).
  - exact (proj2 (record_author rejecting_fromisoformat
                    (PDict merged_by_carol) empty_world)
                 _ (tick (tick empty_world)) eq_refl).
Defined.

(** ** Branches of a pull request record *)

Lemma ref_to_branch_cases ref v :
  ref_to_branch ref = Ok v ->
  exists s,
    v = PStr s /\
    (truthy ref = false -> s = "unknown") /\
    (forall t, ref = PStr t -> t <> "" ->
               String.prefix heads_prefix t = false -> s = t) /\
    (s = "" -> exists t, ref = PStr t /\ String.prefix heads_prefix t = true).
Proof.
  unfold ref_to_branch. destruct (truthy ref) eqn:Ht; simpl negb; cbv iota.
  - destruct ref as [| | | |t| | | |]; simpl; try discriminate.
    destruct (String.prefix heads_prefix t) eqn:Hp.
    + intros [= <-]. eexists. split; [reflexivity | ].
      split; [discriminate | split].
      * intros t' [= <-] _ Hp'. congruence.
      * intros _. exists t. split; [reflexivity | exact Hp].
    + intros [= <-]. exists t. split; [reflexivity | ].
      split; [discriminate | split].
      * intros t' [= <-] _ _. reflexivity.
      * intros ->. discriminate Ht.
  - intros [= <-]. exists "unknown". split; [reflexivity | ].
    split; [reflexivity | split].
    + intros t -> Hne _. apply truthy_str in Hne. congruence.
    + discriminate.
Qed.

(** C9 (as stated) fails: a pull request whose base ref is exactly
    refs/heads/ yields a record whose to_branch is the empty string. *)
Lemma to_branch_empty :
  fst (handle_pull_request rejecting_fromisoformat
         (PDict opened_on_bare_prefix) empty_world)
  = Ok (Some (pr_record "pull_request" "user" (PDict opened_on_bare_prefix)
                (PStr "") (PStr "unknown")
                example_instant example_instant)) /\
  lookup "to_branch"
    (pr_record "pull_request" "user" (PDict opened_on_bare_prefix)
       (PStr "") (PStr "unknown") example_instant example_instant)
  = Some (PStr "").
Proof. split; reflexivity. Qed.

(** C9 (as amended): in every record a pull_request payload produces,
    to_branch and from_branch are strings, never null; each is the literal
    unknown when base.ref, respectively head.ref, is missing, null or
    empty, is the ref itself when that is a non-empty string not beginning
    with refs/heads/, and can be empty only for a ref that begins with
    refs/heads/. *)
Theorem pull_request_branches :
  forall fromisoformat payload w r w',
    handle_pull_request fromisoformat payload w = (Ok (Some r), w') ->
    forall side key,
      side = "base" /\ key = "to_branch" \/
      side = "head" /\ key = "from_branch" ->
      let ref := field_at ["pull_request"; side; "ref"] payload (PStr "") in
      exists s,
        lookup key r = Some (PStr s) /\
        (truthy ref = false -> s = "unknown") /\
        (forall t, ref = PStr t -> t <> "" ->
                   String.prefix heads_prefix t = false -> s = t) /\
        (s = "" ->
         exists t, ref = PStr t /\ String.prefix heads_prefix t = true).
Proof.
  intros fromisoformat payload w r w' H side key Hside ref.
  apply handle_pull_request_Ok in H.
  destruct H as (d & -> & H). cbv zeta in H.
  assert (Hrec : exists tag who tb fb ts created,
             resolved "base" (PDict d) = Ok tb /\
             resolved "head" (PDict d) = Ok fb /\
             r = pr_record tag who (PDict d) tb fb ts created).
  { destruct H as [(_ & tb & fb & ts & created & Hb & Hh & Hr)
                  | [(_ & _ & tb & fb & ts & created & Hb & Hh & Hr)
                    | (_ & _ & Hr & _)]];
      [ | | discriminate Hr]; injection Hr as ->;
      do 6 eexists; (split; [exact Hb | split; [exact Hh | reflexivity]]). }
  destruct Hrec as (tag & who & tb & fb & ts & created & Hb & Hh & ->).
  destruct Hside as [[-> ->] | [-> ->]].
  - destruct (ref_to_branch_cases _ _ Hb) as (s & -> & Hs).
    exists s. split; [reflexivity | exact Hs].
  - destruct (ref_to_branch_cases _ _ Hh) as (s & -> & Hs).
    exists s. split; [reflexivity | exact Hs].
Qed.

Lemma pull_request_branches_witness :
  exists s,
    lookup "from_branch"
      (pr_record "pull_request" "user" (PDict opened_by_bob)
         (PStr "main") (PStr "feature") example_instant example_instant)
    = Some (PStr s) /\
    (truthy (PStr "feature") = false -> s = "unknown") /\
    (forall t, PStr "feature" = PStr t -> t <> "" ->
               String.prefix heads_prefix t = false -> s = t) /\
    (s = "" ->
     exists t, PStr "feature" = PStr t /\ String.prefix heads_prefix t = true).
Proof.
  exact (pull_request_branches rejecting_fromisoformat (PDict opened_by_bob)
           empty_world _ (tick (tick empty_world)) eq_refl
           "head" "from_branch" (or_intror (conj eq_refl eq_refl))).
Defined.

(** ** Handlers leave the collection alone *)

Lemma keeps_store_ret {A} (a : A) : keeps_store (ret a).
Proof. intros w. reflexivity. Qed.

Lemma keeps_store_lift {A} (o : outcome A) : keeps_store (lift o).
Proof. intros w. reflexivity. Qed.

Lemma keeps_store_utcnow : keeps_store utcnow.
Proof. intros w. reflexivity. Qed.

Lemma keeps_store_bind {A B} (m : M A) (f : A -> M B) :
  keeps_store m -> (forall a, keeps_store (f a)) -> keeps_store (bind m f).
Proof.
  intros Hm Hf w. unfold bind. specialize (Hm w).
  destruct (m w) as [[a|e] w1]; simpl in *.
  - rewrite (Hf a w1). exact Hm.
  - exact Hm.
Qed.

Lemma keeps_store_try {A} (body : M A) caught (handler : M A) :
  keeps_store body -> keeps_store handler ->
  keeps_store (try_except body caught handler).
Proof.
  intros Hb Hh w. unfold try_except. specialize (Hb w).
  destruct (body w) as [[a|e] w1]; simpl in *.
  - exact Hb.
  - destruct (caught e); simpl.
    + rewrite (Hh w1). exact Hb.
    + exact Hb.
Qed.

Lemma keeps_store_if {A} (b : bool) (m1 m2 : M A) :
  keeps_store m1 -> keeps_store m2 -> keeps_store (if b then m1 else m2).
Proof. destruct b; auto. Qed.

Ltac keeps_store :=
  repeat first
    [ apply keeps_store_bind; [ | intros ? ]
    | apply keeps_store_if
    | apply keeps_store_try
    | apply keeps_store_ret
    | apply keeps_store_lift
    | apply keeps_store_utcnow
    | match goal with
      | |- keeps_store (match ?x with _ => _ end) => destruct x
      end ].

Lemma keeps_store_handle_push payload : keeps_store (handle_push payload).
Proof. unfold handle_push. keeps_store. Qed.

Lemma keeps_store_parse fromisoformat v :
  keeps_store (parse_github_timestamp fromisoformat v).
Proof. unfold parse_github_timestamp. keeps_store. Qed.

Lemma keeps_store_handle_pull_request fromisoformat payload :
  keeps_store (handle_pull_request fromisoformat payload).
Proof.
  unfold handle_pull_request.
  keeps_store; apply keeps_store_parse.
Qed.

Lemma keeps_store_format_timestamp v : keeps_store (format_timestamp v).
Proof. unfold format_timestamp. keeps_store. Qed.

Lemma keeps_store_reshape py_str doc : keeps_store (reshape py_str doc).
Proof.
  unfold reshape. keeps_store; apply keeps_store_format_timestamp.
Qed.

Lemma keeps_store_for_each {A B} (f : A -> M B) l :
  (forall a, keeps_store (f a)) -> keeps_store (for_each f l).
Proof.
  intros Hf. induction l as [|x l IH]; simpl.
  - apply keeps_store_ret.
  - keeps_store; auto.
Qed.

Lemma keeps_store_get_events py_str bson_leb :
  keeps_store (get_events py_str bson_leb).
Proof.
  intros w. unfold get_events.
  apply (keeps_store_bind (for_each (reshape py_str) (find_sort_limit bson_leb w))).
  - apply keeps_store_for_each. intros doc. apply keeps_store_reshape.
  - intros events. apply keeps_store_lift.
Qed.

(** ** What the routes store *)

Lemma stored_actions_in_app allowed w doc w' :
  store w' = (store w ++ [doc])%list ->
  (exists a, lookup "action" (doc_fields doc) = Some (PStr a) /\ In a allowed) ->
  stored_actions_in allowed w -> stored_actions_in allowed w'.
Proof.
  unfold stored_actions_in. intros -> Hdoc Hw.
  apply Forall_app. split; [exact Hw | ].
  constructor; [exact Hdoc | constructor].
Qed.

Lemma stored_actions_in_same allowed w w' :
  store w' = store w ->
  stored_actions_in allowed w -> stored_actions_in allowed w'.
Proof. unfold stored_actions_in. intros ->. trivial. Qed.

Lemma bind_raise {A B} (m : M A) (f : A -> M B) e w w1 :
  m w = (Raise e, w1) -> bind m f w = (Raise e, w1).
Proof. unfold bind. intros ->. reflexivity. Qed.

Lemma insert_then_stored doc w :
  (exists e, (_ <- insert_one doc ;; ret Stored) w = (Raise e, w)) \/
  (_ <- insert_one doc ;; ret Stored) w
  = (Ok Stored,
     mkWorld (clock w) (ticks w)
       (store w ++ [mkDocument (PObjectId (next_oid w)) doc])
       (next_oid w + 1)).
Proof.
  unfold bind, insert_one.
  destruct (bson_error (PDict doc)) as [e|].
  - left. exists e. reflexivity.
  - right. reflexivity.
Qed.

Lemma webhook_store fromisoformat event body w :
  let w' := snd (webhook fromisoformat event body w) in
  store w' = store w \/
  exists doc a,
    store w' = (store w ++ [doc])%list /\
    lookup "action" (doc_fields doc) = Some (PStr a) /\ In a core_actions.
Proof.
  unfold webhook. cbv zeta.
  set (payload := match body with Some v => or_empty v | None => PDict [] end).
  destruct (String.eqb event "push").
  { pose proof (keeps_store_handle_push payload w) as Hs.
    destruct (handle_push payload w) as [[r|e] w1] eqn:H;
      [rewrite (bind_run _ _ _ _ _ H) | rewrite (bind_raise _ _ _ _ _ H)].
    - simpl in Hs. apply handle_push_Ok in H.
      destruct H as (d & s & ts & created & _ & _ & ->).
      destruct (insert_then_stored
                  [("action", PStr "push");
                   ("author",
                    field_at ["pusher"; "name"] payload (PStr "unknown-user"));
                   ("repo",
                    field_at ["repository"; "name"] payload
                      (PStr "unknown-repo"));
                   ("from_branch", PNone);
                   ("to_branch", PStr (str_replace s "refs/heads/" ""));
                   ("timestamp", PDatetime ts);
                   ("created_at", PDatetime created)] w1)
        as [[e He] | He]; rewrite He; cbn [snd store].
      + left. exact Hs.
      + right. eexists. exists "push". rewrite Hs.
        split; [reflexivity | split; [reflexivity | left; reflexivity]].
    - left. exact Hs. }
  destruct (String.eqb event "pull_request").
  { pose proof (keeps_store_handle_pull_request fromisoformat payload w) as Hs.
    destruct (handle_pull_request fromisoformat payload w) as [[r|e] w1] eqn:H;
      [rewrite (bind_run _ _ _ _ _ H) | rewrite (bind_raise _ _ _ _ _ H)].
    - simpl in Hs. apply handle_pull_request_Ok in H.
      destruct H as (d & _ & H). cbv zeta in H.
      destruct H as [(_ & tb & fb & ts & created & _ & _ & ->)
                    | [(_ & _ & tb & fb & ts & created & _ & _ & ->)
                      | (_ & _ & -> & _)]].
      + destruct (insert_then_stored
                    (pr_record "merge" "merged_by" payload tb fb ts created) w1)
          as [[e He] | He]; rewrite He; cbn [snd store].
        * left. exact Hs.
        * right. eexists. exists "merge". rewrite Hs.
          split; [reflexivity | split; [reflexivity | ]].
          right; right; left; reflexivity.
      + destruct (insert_then_stored
                    (pr_record "pull_request" "user" payload tb fb ts created)
                    w1)
          as [[e He] | He]; rewrite He; cbn [snd store].
        * left. exact Hs.
        * right. eexists. exists "pull_request". rewrite Hs.
          split; [reflexivity | split; [reflexivity | ]].
          right; left; reflexivity.
      + left. exact Hs.
    - left. exact Hs. }
  destruct (String.eqb event "ping"); left; reflexivity.
Qed.

Lemma debug_insert_store w :
  store (snd (debug_insert w))
  = (store w
     ++ [mkDocument (PObjectId (next_oid w))
           [("action", PStr "debug");
            ("author", PStr "ankith");
            ("repo", PStr "manual-test");
            ("created_at", PDatetime (naive (clock w (ticks w))))]])%list.
Proof. reflexivity. Qed.

Section Runs.

Variable fromisoformat : string -> option datetime.
Variable py_str : value -> string.
Variable bson_leb : value -> value -> bool.

Lemma serve_core req w :
  req <> DebugInsert ->
  stored_actions_in core_actions w ->
  stored_actions_in core_actions (serve fromisoformat py_str bson_leb req w).
Proof.
  intros Hreq Hw. destruct req as [event body | | | ]; simpl.
  - destruct (webhook_store fromisoformat event body w)
      as [Hs | (doc & a & Hs & Ha & Hin)].
    + exact (stored_actions_in_same _ _ _ Hs Hw).
    + apply (stored_actions_in_app _ _ _ _ Hs); [ | exact Hw].
      exists a. split; assumption.
  - contradiction.
  - exact (stored_actions_in_same _ _ _
             (keeps_store_get_events py_str bson_leb w) Hw).
  - exact Hw.
Qed.

Lemma serve_all req w :
  stored_actions_in ("debug" :: core_actions) w ->
  stored_actions_in ("debug" :: core_actions)
    (serve fromisoformat py_str bson_leb req w).
Proof.
  intros Hw. destruct req as [event body | | | ]; simpl.
  - destruct (webhook_store fromisoformat event body w)
      as [Hs | (doc & a & Hs & Ha & Hin)].
    + exact (stored_actions_in_same _ _ _ Hs Hw).
    + apply (stored_actions_in_app _ _ _ _ Hs); [ | exact Hw].
      exists a. split; [exact Ha | right; exact Hin].
  - apply (stored_actions_in_app _ _ _ _ (debug_insert_store w)); [ | exact Hw].
    exists "debug". split; [reflexivity | left; reflexivity].
  - exact (stored_actions_in_same _ _ _
             (keeps_store_get_events py_str bson_leb w) Hw).
  - exact Hw.
Qed.

End Runs.

(** C4 (as stated) fails: the debug-insert route stores a record whose
    action is debug. *)
Lemma debug_insert_stores_debug :
  store (snd (debug_insert empty_world))
  = [mkDocument (PObjectId 0)
       [("action", PStr "debug");
        ("author", PStr "ankith");
        ("repo", PStr "manual-test");
        ("created_at", PDatetime example_instant)]] /\
  ~ stored_actions_in core_actions (snd (debug_insert empty_world)).
Proof.
  split; [reflexivity | ].
  unfold stored_actions_in. simpl. intros H.
  apply Forall_inv in H. destruct H as (a & Ha & Hin).
  simpl in Ha. injection Ha as <-.
  simpl in Hin. repeat (destruct Hin as [Hin | Hin]; [discriminate Hin | ]).
  exact Hin.
Qed.

(** C4 (as amended): every record the webhook route stores has an action
    from push, pull_request and merge, so a collection that holds only
    those keeps holding only those through any requests other than
    debug-insert; the debug-insert route stores a record whose action is
    debug, and no request stores any tag beyond these four. *)
Theorem stored_actions_closed :
  forall fromisoformat py_str bson_leb reqs w,
    (Forall (fun req => req <> DebugInsert) reqs ->
     stored_actions_in core_actions w ->
     stored_actions_in core_actions
       (run fromisoformat py_str bson_leb reqs w)) /\
    (stored_actions_in ("debug" :: core_actions) w ->
     stored_actions_in ("debug" :: core_actions)
       (run fromisoformat py_str bson_leb reqs w)).
Proof.
  intros fromisoformat py_str bson_leb reqs.
  unfold run. induction reqs as [|req reqs IH]; intros w; simpl.
  - split; trivial.
  - split.
    + intros Hreqs Hw. inversion Hreqs as [|? ? Hreq Hrest]; subst.
      apply (proj1 (IH _)); [exact Hrest | ].
      apply serve_core; assumption.
    + intros Hw. apply (proj2 (IH _)). apply serve_all. exact Hw.
Qed.

Lemma stored_actions_closed_witness :
  stored_actions_in core_actions
    (run rejecting_fromisoformat text_of instant_leb
       [Webhook "push" (Some (PDict push_by_alice)); GetEvents]
       empty_world).
Proof.
  apply (proj1 (stored_actions_closed rejecting_fromisoformat text_of
                  instant_leb
                  [Webhook "push" (Some (PDict push_by_alice)); GetEvents]
                  empty_world)).
  - repeat constructor; discriminate.
  - constructor.
Defined.

(** ** The query endpoint *)

Section Sorting.

Variable bson_leb : value -> value -> bool.
Hypothesis bson_leb_total :
  forall a b, bson_leb a b = true \/ bson_leb b a = true.
Hypothesis bson_leb_trans :
  forall a b c, bson_leb a b = true -> bson_leb b c = true ->
                bson_leb a c = true.

Lemma insert_desc_perm d l : Permutation (insert_desc bson_leb d l) (d :: l).
Proof.
  induction l as [|x l IH]; simpl.
  - apply Permutation_refl.
  - destruct (bson_leb (field "created_at" x) (field "created_at" d)).
    + apply Permutation_refl.
    + apply perm_trans with (x :: d :: l).
      * apply perm_skip. exact IH.
      * apply perm_swap.
Qed.



Lemma sort_desc_perm l :
  Permutation (fold_right (insert_desc bson_leb) [] l) l.
Proof.
  induction l as [|d l IH]; simpl.
  - constructor.
  - apply perm_trans with (d :: fold_right (insert_desc bson_leb) [] l).
    + apply insert_desc_perm.
    + apply perm_skip. exact IH.
Qed.


End Sorting.



(** ** The query endpoint: the answer *)

Lemma reshape_element py_str doc w :
  exists tf,
    reshape py_str doc w = (Ok (element_for py_str doc tf), w) /\
    timestamp_shown py_str doc tf.
Proof.
  unfold reshape, timestamp_shown, element_for, timestamp_passed,
    created_passed.
  destruct (field "timestamp" doc) as [ |b|n|m e|s|l|d|dt|oid] eqn:Hts;
    try (eexists; split; reflexivity).
  destruct (format_datetime_total dt) as [tf Htf].
  assert (Hfmt : forall w0, format_timestamp (PDatetime dt) w0 = (Ok tf, w0)).
  { intros w0. rewrite format_timestamp_datetime, Htf. reflexivity. }
  exists tf. cbv zeta. split; [ | exact Hfmt].
  rewrite (bind_run _ _ (PStr tf, PStr (match dt_tzinfo dt with
                                        | None => isoformat dt ++ "Z"
                                        | Some _ => isoformat dt
                                        end)) w w); [reflexivity | ].
  rewrite (bind_run _ _ tf w w (Hfmt w)). reflexivity.
Qed.

Lemma for_each_elements py_str docs w :
  exists outs,
    for_each (reshape py_str) docs w = (Ok outs, w) /\
    Forall2 (fun doc out =>
               exists tf,
                 out = element_for py_str doc tf /\
                 timestamp_shown py_str doc tf)
            docs outs.
Proof.
  induction docs as [|doc docs (outs & Hrun & Hall)]; cbn [for_each].
  - exists []. split; [reflexivity | constructor].
  - destruct (reshape_element py_str doc w) as (tf & Hout & Hs).
    exists (element_for py_str doc tf :: outs).
    rewrite (bind_run _ _ _ _ _ Hout), (bind_run _ _ _ _ _ Hrun).
    split; [reflexivity | ].
    constructor; [exists tf; split; [reflexivity | exact Hs] | exact Hall].
Qed.

(** The encoder accepts the element of a document exactly when it accepts
    the values taken from the document. *)
Lemma jsonable_element py_str doc tf :
  jsonable (PDict (element_for py_str doc tf)) = encodable_document doc.
Proof.
  unfold encodable_document, element_for, timestamp_passed, created_passed.
  cbn [jsonable forallb passed_keys andb].
  destruct (field "timestamp" doc); destruct (field "created_at" doc);
    reflexivity.
Qed.

(** The element as the response has it: keys in order, values encoded. *)
Lemma json_object_element py_str doc tf :
  json_object (element_for py_str doc tf)
  = [("_id", PStr (py_str (doc_id doc)));
     ("action", json_of (field "action" doc));
     ("author", json_of (field "author" doc));
     ("created_at", json_of (created_passed doc));
     ("from_branch", json_of (field "from_branch" doc));
     ("repo", json_of (field "repo" doc));
     ("timestamp", json_of (timestamp_passed doc));
     ("timestamp_formatted", PStr tf);
     ("to_branch", json_of (field "to_branch" doc))].
Proof. reflexivity. Qed.

(** The run of the query: it reads, and answers with the encoded elements
    of the documents found or raises TypeError. *)
Lemma get_events_run py_str bson_leb w :
  exists outs,
    Forall2 (fun doc out =>
               exists tf,
                 out = json_object (element_for py_str doc tf) /\
                 timestamp_shown py_str doc tf)
            (find_sort_limit bson_leb w) outs /\
    get_events py_str bson_leb w
    = (if forallb encodable_document (find_sort_limit bson_leb w)
       then Ok outs else Raise TypeError, w).
Proof.
  unfold get_events.
  destruct (for_each_elements py_str (find_sort_limit bson_leb w) w)
    as (outs & Hrun & Hall).
  exists (map json_object outs). split.
  - clear Hrun. induction Hall as [|doc out docs outs (tf & -> & Hs) _ IH].
    + constructor.
    + constructor; [exists tf; split; [reflexivity | exact Hs] | exact IH].
  - rewrite (bind_run _ _ _ _ _ Hrun). unfold lift, jsonify.
    replace (forallb (fun e => jsonable (PDict e)) outs)
      with (forallb encodable_document (find_sort_limit bson_leb w));
      [reflexivity | ].
    clear Hrun. induction Hall as [|doc out docs outs (tf & -> & _) _ IH].
    + reflexivity.
    + cbn [forallb]. rewrite jsonable_element, IH. reflexivity.
Qed.





(* ===================================================================== *)
(** * Further properties *)
(* ===================================================================== *)

(** ** More on the branch reference resolver *)

Lemma str_replace_nowhere old new s :
  old <> "" -> occurs_nowhere old s = true -> str_replace s old new = s.
Proof.
  intros Hold. induction s as [|c s IH]; simpl.
  - intros _. destruct old; [contradiction | reflexivity].
  - intros H. apply andb_true_iff in H. destruct H as [Hp Hs].
    apply negb_true_iff in Hp.
    rewrite (str_replace_elsewhere _ _ _ _ Hold Hp), (IH Hs). reflexivity.
Qed.

(** X1: a ref made of refs/heads/ and a branch name in which refs/heads/
    does not occur resolves to exactly that name. *)
Theorem ref_to_branch_strips_clean_prefix :
  forall name,
    occurs_nowhere heads_prefix name = true ->
    ref_to_branch (PStr (heads_prefix ++ name)) = Ok (PStr name).
Proof.
  intros name Hname. rewrite ref_to_branch_heads.
  rewrite (str_replace_nowhere heads_prefix "" name); [reflexivity | | exact Hname].
  discriminate.
Qed.

Lemma ref_to_branch_strips_clean_prefix_witness :
  ref_to_branch (PStr "refs/heads/feature/login") = Ok (PStr "feature/login").
Proof.
  exact (ref_to_branch_strips_clean_prefix "feature/login" eq_refl).
Defined.

(** X2: the resolver raises exactly on a truthy value that is not a str
    (a non-zero number, true, a non-empty list or object), and then with
    AttributeError; every falsy value, whatever its type, resolves to
    unknown. *)
Theorem ref_to_branch_raises_iff :
  forall ref,
    ((exists e, ref_to_branch ref = Raise e)
     <-> truthy ref = true /\ is_str ref = false) /\
    (forall e, ref_to_branch ref = Raise e -> e = AttributeError) /\
    (truthy ref = false -> ref_to_branch ref = Ok (PStr "unknown")).
Proof.
  intros ref. unfold ref_to_branch.
  destruct (truthy ref) eqn:Ht; cbn [negb].
  - destruct ref as [| | | |s| | | |]; cbn [py_startswith is_str];
      try (split; [split; [intros _; split; reflexivity
                          | intros _; eexists; reflexivity]
                  | split; [intros e [= <-]; reflexivity | discriminate]]).
    split; [ | split; [ | discriminate]].
    + split; [ | intros [_ H]; discriminate H].
      intros [e H]. destruct (String.prefix heads_prefix s); discriminate H.
    + intros e H. destruct (String.prefix heads_prefix s); discriminate H.
  - split; [ | split; [discriminate | reflexivity]].
    split; [intros [e H]; discriminate H | intros [H _]; discriminate H].
Qed.

Lemma ref_to_branch_raises_iff_witness :
  ref_to_branch (PInt 0) = Ok (PStr "unknown") /\
  exists e, ref_to_branch (PInt 7) = Raise e.
Proof.
  split.
  - exact (proj2 (proj2 (ref_to_branch_raises_iff (PInt 0))) eq_refl).
  - exact (proj2 (proj1 (ref_to_branch_raises_iff (PInt 7)))
             (conj eq_refl eq_refl)).
Defined.

(** ** Timestamp parsing *)

Section Parsing.

Variable fromisoformat : string -> option datetime.

Lemma parse_github_timestamp_falsy v w :
  truthy v = false ->
  parse_github_timestamp fromisoformat v w
  = (Ok (naive (clock w (ticks w))), tick w).
Proof. unfold parse_github_timestamp. intros ->. reflexivity. Qed.

Lemma parse_github_timestamp_text s w :
  s <> "" ->
  parse_github_timestamp fromisoformat (PStr s) w
  = match fromisoformat (str_replace s "Z" "+00:00") with
    | Some dt => (Ok dt, w)
    | None => (Ok (naive (clock w (ticks w))), tick w)
    end.
Proof.
  intros Hs. apply truthy_str in Hs.
  unfold parse_github_timestamp. rewrite Hs. cbn [negb].
  unfold try_except, bind, lift, py_replace.
  destruct (fromisoformat (str_replace s "Z" "+00:00")); reflexivity.
Qed.

(** A successful parse either took the instant from [fromisoformat]
    without reading the clock, or is the next clock reading. *)
Lemma parse_github_timestamp_Ok v w dt w' :
  parse_github_timestamp fromisoformat v w = (Ok dt, w') ->
  (dt = naive (clock w (ticks w)) /\ w' = tick w) \/
  (exists s, v = PStr s /\
             fromisoformat (str_replace s "Z" "+00:00") = Some dt /\ w' = w).
Proof.
  destruct (truthy v) eqn:Ht.
  - destruct v as [| | | |s| | |d|];
      try (unfold parse_github_timestamp; rewrite Ht; discriminate).
    + assert (Hs : s <> "") by (apply truthy_str; exact Ht).
      rewrite (parse_github_timestamp_text s w Hs).
      destruct (fromisoformat (str_replace s "Z" "+00:00")) as [dt'|] eqn:Hf.
      * intros [= <- <-]. right. exists s. repeat split. exact Hf.
      * intros [= <- <-]. left. split; reflexivity.
    + unfold parse_github_timestamp. rewrite Ht. cbn.
      intros [= <- <-]. left. split; reflexivity.
  - rewrite (parse_github_timestamp_falsy v w Ht).
    intros [= <- <-]. left. split; reflexivity.
Qed.

End Parsing.

Lemma prefix_single a c rest :
  String.prefix (String a "") (String c rest) = false -> a <> c.
Proof.
  simpl. destruct (ascii_dec a c) as [-> | Hne]; [ | intros _; exact Hne].
  destruct rest; discriminate.
Qed.

Lemma prefix_single_append a c rest tail :
  String.prefix (String a "") (String c rest) = false ->
  String.prefix (String a "") (String c (rest ++ tail)) = false.
Proof.
  intros H. apply prefix_single in H. simpl.
  destruct (ascii_dec a c) as [E | _]; [contradiction | reflexivity].
Qed.

(** A one-character [old] that does not occur in [s] is replaced in the
    rest only. *)
Lemma str_replace_after a new s tail :
  occurs_nowhere (String a "") s = true ->
  str_replace (s ++ tail) (String a "") new
  = s ++ str_replace tail (String a "") new.
Proof.
  induction s as [|c s IH]; simpl append.
  - intros _. reflexivity.
  - intros H. cbn [occurs_nowhere] in H.
    apply andb_true_iff in H. destruct H as [Hp Hs].
    apply negb_true_iff in Hp.
    rewrite str_replace_elsewhere;
      [ | discriminate | apply prefix_single_append; exact Hp].
    rewrite (IH Hs). reflexivity.
Qed.

(** X3: a timestamp written as a body followed by the designator Z, the
    body holding no other Z, is handed to [fromisoformat] as the body
    followed by +00:00; what [fromisoformat] returns is the result, and no
    clock is read.  When [fromisoformat] rejects the string the result is
    the next clock reading. *)
Theorem parse_github_timestamp_zulu :
  forall fromisoformat body w,
    occurs_nowhere "Z" body = true ->
    parse_github_timestamp fromisoformat (PStr (body ++ "Z")) w
    = match fromisoformat (body ++ "+00:00") with
      | Some dt => (Ok dt, w)
      | None => (Ok (naive (clock w (ticks w))), tick w)
      end.
Proof.
  intros fromisoformat body w Hbody.
  rewrite parse_github_timestamp_text.
  - rewrite (str_replace_after "Z"%char "+00:00" body "Z" Hbody).
    reflexivity.
  - destruct body; discriminate.
Qed.

Lemma parse_github_timestamp_zulu_witness :
  parse_github_timestamp example_fromisoformat
    (PStr "2021-04-01T21:30:00Z") empty_world
  = (Ok example_instant_utc, empty_world).
Proof.
  exact (parse_github_timestamp_zulu example_fromisoformat
           "2021-04-01T21:30:00" empty_world eq_refl).
Defined.

(** X4: the parser raises exactly on a truthy value that is neither a str
    nor a datetime (a non-zero number, true, a non-empty list or object),
    and then with AttributeError, which its except clause does not catch;
    on every falsy value it returns the next clock reading. *)
Theorem parse_github_timestamp_raises_iff :
  forall fromisoformat v w,
    ((exists e w', parse_github_timestamp fromisoformat v w = (Raise e, w'))
     <-> truthy v = true /\ is_str v = false /\ is_datetime v = false) /\
    (forall e w',
        parse_github_timestamp fromisoformat v w = (Raise e, w') ->
        e = AttributeError /\ w' = w) /\
    (truthy v = false ->
     parse_github_timestamp fromisoformat v w
     = (Ok (naive (clock w (ticks w))), tick w)).
Proof.
  intros fromisoformat v w.
  split; [ | split; [ | apply parse_github_timestamp_falsy]].
  - destruct (truthy v) eqn:Ht.
    + destruct v as [| | | |s| | |d|]; cbn [is_str is_datetime];
        try discriminate Ht;
        try (split; [intros _; repeat split
                    | intros _; exists AttributeError, w;
                      unfold parse_github_timestamp; rewrite Ht; reflexivity]).
      * assert (Hs : s <> "") by (apply truthy_str; exact Ht).
        rewrite (parse_github_timestamp_text fromisoformat s w Hs).
        split; [ | intros (_ & H & _); discriminate H].
        intros (e & w' & H).
        destruct (fromisoformat (str_replace s "Z" "+00:00")); discriminate H.
      * split; [ | intros (_ & _ & H); discriminate H].
        intros (e & w' & H). discriminate H.
    + rewrite (parse_github_timestamp_falsy fromisoformat v w Ht).
      split; [intros (e & w' & H); discriminate H
             | intros (H & _); discriminate H].
  - intros e w' H. destruct (truthy v) eqn:Ht.
    + destruct v as [| | | |s| | |d|]; try discriminate Ht;
        try (unfold parse_github_timestamp in H; rewrite Ht in H;
             injection H as <- <-; split; reflexivity).
      * assert (Hs : s <> "") by (apply truthy_str; exact Ht).
        rewrite (parse_github_timestamp_text fromisoformat s w Hs) in H.
        destruct (fromisoformat (str_replace s "Z" "+00:00")); discriminate H.
      * discriminate H.
    + rewrite (parse_github_timestamp_falsy fromisoformat v w Ht) in H.
      discriminate H.
Qed.

Lemma parse_github_timestamp_raises_iff_witness :
  (exists e w',
      parse_github_timestamp rejecting_fromisoformat (PInt 1617312600)
        empty_world = (Raise e, w')) /\
  parse_github_timestamp rejecting_fromisoformat PNone empty_world
  = (Ok example_instant, tick empty_world).
Proof.
  split.
  - exact (proj2 (proj1 (parse_github_timestamp_raises_iff
                           rejecting_fromisoformat (PInt 1617312600)
                           empty_world))
             (conj eq_refl (conj eq_refl eq_refl))).
  - exact (proj2 (proj2 (parse_github_timestamp_raises_iff
                           rejecting_fromisoformat PNone empty_world))
             eq_refl).
Defined.

(** ** More on the push handler *)

Lemma absent_or_holder k k2 d dflt :
  absent_or is_dict k d = true ->
  exists holder,
    py_get (PDict d) k (PDict []) = Ok holder /\
    py_get holder k2 dflt = Ok (field_at [k; k2] (PDict d) dflt).
Proof.
  unfold absent_or. intros H.
  exists (get_or k d (PDict [])). split; [reflexivity | ].
  unfold field_at, get_or. cbn [at_path].
  destruct (lookup k d) as [holder|].
  - destruct holder as [| | | | | |h| |]; try discriminate H.
    cbn [py_get at_path]. unfold get_or.
    destruct (lookup k2 h); reflexivity.
  - reflexivity.
Qed.

Lemma holder_absent_or k k2 d dflt holder v :
  py_get (PDict d) k (PDict []) = Ok holder ->
  py_get holder k2 dflt = Ok v ->
  absent_or is_dict k d = true.
Proof.
  cbn [py_get]. unfold get_or, absent_or. intros [= <-].
  destruct (lookup k d) as [h|]; [ | reflexivity].
  intros H. apply py_get_Ok in H. destruct H as (h' & -> & _). reflexivity.
Qed.

Lemma absent_or_text k d :
  absent_or is_str k d = true ->
  exists s, field_at [k] (PDict d) (PStr "") = PStr s.
Proof.
  rewrite field_at_one. unfold absent_or, get_or.
  destruct (lookup k d) as [v|].
  - destruct v; try discriminate. intros _. eexists; reflexivity.
  - intros _. eexists; reflexivity.
Qed.

(** On a payload of the expected types the push handler returns its
    record after two clock readings. *)
Lemma handle_push_run d w s :
  push_types d = true ->
  field_at ["ref"] (PDict d) (PStr "") = PStr s ->
  handle_push (PDict d) w
  = (Ok (push_record (PDict d) s
           (naive (clock w (ticks w))) (naive (clock w (S (ticks w))))),
     tick (tick w)).
Proof.
  unfold push_types. intros H Href.
  apply andb_true_iff in H. destruct H as [H Hr].
  apply andb_true_iff in H. destruct H as [Hrepo Hpusher].
  destruct (absent_or_holder "repository" "name" d (PStr "unknown-repo") Hrepo)
    as (repository & E1 & E2).
  destruct (absent_or_holder "pusher" "name" d (PStr "unknown-user") Hpusher)
    as (pusher & E3 & E4).
  unfold handle_push.
  rewrite (bind_lift _ _ _ _ E1), (bind_lift _ _ _ _ E2),
    (bind_lift _ _ _ _ E3), (bind_lift _ _ _ _ E4),
    (bind_lift _ _ _ _ (py_get_dict _ _ _)).
  rewrite <- field_at_one, Href.
  reflexivity.
Qed.

(** X5: the push handler returns a record exactly on an object whose
    [repository] and [pusher] are absent or objects and whose [ref] is
    absent or a string; on anything else it raises. *)
Theorem handle_push_returns_iff :
  forall payload w,
    (exists r w', handle_push payload w = (Ok r, w'))
    <-> exists d, payload = PDict d /\ push_types d = true.
Proof.
  intros payload w. split.
  - intros (r & w' & H). unfold handle_push in H.
    step_lift H as repository Erepository. step_lift H as repo Erepo.
    step_lift H as pusher_obj Epusher_obj. step_lift H as pusher Epusher.
    step_lift H as ref Eref. step_lift H as branch Ebranch.
    pose proof Eref as Ed. apply py_get_Ok in Ed. destruct Ed as (d & -> & Hr).
    exists d. split; [reflexivity | ].
    unfold push_types.
    rewrite (holder_absent_or _ _ _ _ _ _ Erepository Erepo).
    rewrite (holder_absent_or _ _ _ _ _ _ Epusher_obj Epusher).
    cbn [andb]. unfold absent_or. unfold get_or in Hr.
    destruct (lookup "ref" d) as [v|]; [ | reflexivity].
    subst ref. destruct v; try discriminate Ebranch. reflexivity.
  - intros (d & -> & Ht).
    destruct (absent_or_text "ref" d) as (s & Hs).
    { unfold push_types in Ht. apply andb_true_iff in Ht. apply Ht. }
    rewrite (handle_push_run d w s Ht Hs). do 2 eexists. reflexivity.
Qed.

Lemma handle_push_returns_iff_witness :
  exists r w', handle_push (PDict push_by_alice) empty_world = (Ok r, w').
Proof.
  exact (proj2 (handle_push_returns_iff (PDict push_by_alice) empty_world)
           (ex_intro _ push_by_alice (conj eq_refl eq_refl))).
Defined.

(** X6: on such a payload the record has action push and no from_branch;
    author and repo are [pusher.name] and [repository.name] or their
    literal defaults; to_branch is [ref] with every refs/heads/ removed,
    hence the empty string when [ref] is absent; timestamp and created_at
    are two successive clock readings, timestamp first. *)
Theorem handle_push_record :
  forall d w,
    push_types d = true ->
    exists ref,
      field_at ["ref"] (PDict d) (PStr "") = PStr ref /\
      handle_push (PDict d) w
      = (Ok (push_record (PDict d) ref
               (naive (clock w (ticks w))) (naive (clock w (S (ticks w))))),
         tick (tick w)) /\
      (lookup "ref" d = None ->
       lookup "to_branch"
         (push_record (PDict d) ref
            (naive (clock w (ticks w))) (naive (clock w (S (ticks w)))))
       = Some (PStr "")).
Proof.
  intros d w Ht.
  destruct (absent_or_text "ref" d) as (s & Hs).
  { unfold push_types in Ht. apply andb_true_iff in Ht. apply Ht. }
  exists s. split; [exact Hs | split].
  - apply handle_push_run; assumption.
  - intros Habs. rewrite field_at_one in Hs. unfold get_or in Hs.
    rewrite Habs in Hs. injection Hs as <-. reflexivity.
Qed.

Lemma handle_push_record_witness :
  exists ref,
    field_at ["ref"] (PDict push_by_alice) (PStr "") = PStr ref /\
    handle_push (PDict push_by_alice) empty_world
    = (Ok (push_record (PDict push_by_alice) ref
             (naive (clock empty_world (ticks empty_world)))
             (naive (clock empty_world (S (ticks empty_world))))),
       tick (tick empty_world)) /\
    (lookup "ref" push_by_alice = None ->
     lookup "to_branch"
       (push_record (PDict push_by_alice) ref
          (naive (clock empty_world (ticks empty_world)))
          (naive (clock empty_world (S (ticks empty_world)))))
     = Some (PStr "")).
Proof.
  exact (handle_push_record push_by_alice empty_world eq_refl).
Defined.

(** ** More on the pull request handler *)

Lemma utcnow_Ok w dt w' :
  utcnow w = (Ok dt, w') -> dt = naive (clock w (ticks w)) /\ w' = tick w.
Proof. unfold utcnow. intros [= <- <-]. split; reflexivity. Qed.

Lemma pr_field p d k dflt v :
  or_empty (get_or "pull_request" d PNone) = PDict p ->
  py_get (PDict p) k dflt = Ok v ->
  field_at ["pull_request"; k] (PDict d) dflt = v.
Proof.
  intros Hp H. rewrite <- (field_at_cons _ _ _ Hp), field_at_one.
  cbn in H. injection H as <-. reflexivity.
Qed.

(** X7: when the action is neither closed with a truthy merged nor opened
    nor synchronize, and [pull_request] is absent, falsy or an object, the
    handler returns Ignore without looking at any other field and without
    reading the clock. *)
Theorem handle_pull_request_ignores_unread :
  forall fromisoformat d w,
    (exists p, or_empty (field_at ["pull_request"] (PDict d) PNone) = PDict p) ->
    let action := field_at ["action"] (PDict d) PNone in
    let merged := field_at ["pull_request"; "merged"] (PDict d) (PBool false) in
    eq_str action "closed" && truthy merged = false ->
    eq_str action "opened" || eq_str action "synchronize" = false ->
    handle_pull_request fromisoformat (PDict d) w = (Ok None, w).
Proof.
  intros fromisoformat d w (p & Hp) action merged Hm Ho.
  rewrite field_at_one in Hp.
  unfold handle_pull_request.
  rewrite (bind_lift _ _ _ _ (py_get_dict _ _ _)). rewrite Hp.
  rewrite (bind_lift _ _ _ _ (py_get_dict _ _ _)).
  rewrite (bind_lift _ _ _ _ (py_get_dict _ _ _)).
  rewrite <- (pr_field p d "merged" (PBool false) _ Hp (py_get_dict _ _ _)).
  rewrite <- (field_at_one "action" d PNone).
  fold action merged. rewrite Hm, Ho. reflexivity.
Qed.

Lemma handle_pull_request_ignores_unread_witness :
  handle_pull_request rejecting_fromisoformat
    (PDict [("action", PStr "labeled");
            ("pull_request", PDict [("base", PNone)])]) empty_world
  = (Ok None, empty_world).
Proof.
  exact (handle_pull_request_ignores_unread rejecting_fromisoformat
           [("action", PStr "labeled");
            ("pull_request", PDict [("base", PNone)])] empty_world
           (ex_intro _ [("base", PNone)] eq_refl) eq_refl eq_refl).
Defined.

(** X8: the handler raises AttributeError on a payload that is not an
    object, and on an object whose [pull_request] is truthy without being
    an object, whatever the action. *)
Theorem handle_pull_request_needs_objects :
  forall fromisoformat payload w,
    (is_dict payload = false ->
     handle_pull_request fromisoformat payload w = (Raise AttributeError, w)) /\
    (forall d pr,
        payload = PDict d ->
        lookup "pull_request" d = Some pr ->
        truthy pr = true -> is_dict pr = false ->
        handle_pull_request fromisoformat payload w
        = (Raise AttributeError, w)).
Proof.
  intros fromisoformat payload w. split.
  - intros H. destruct payload; try discriminate H; reflexivity.
  - intros d pr -> Hpr Ht Hd. unfold handle_pull_request.
    rewrite (bind_lift _ _ _ _ (py_get_dict _ _ _)).
    rewrite (bind_lift _ _ _ _ (py_get_dict _ _ _)).
    unfold get_or at 1 2 3 4. rewrite Hpr. unfold or_empty. rewrite Ht.
    destruct pr; try discriminate Hd; reflexivity.
Qed.

Lemma handle_pull_request_needs_objects_witness :
  handle_pull_request rejecting_fromisoformat
    (PDict labeled_with_text_pull_request) empty_world
  = (Raise AttributeError, empty_world).
Proof.
  exact (proj2 (handle_pull_request_needs_objects rejecting_fromisoformat
                  (PDict labeled_with_text_pull_request) empty_world)
           labeled_with_text_pull_request (PStr "none")
           eq_refl eq_refl eq_refl eq_refl).
Defined.

(** X9: in a record of the pull request handler created_at is always a
    clock reading.  The timestamp is either the instant [fromisoformat]
    gave for [pull_request.merged_at] (merge) or [pull_request.created_at]
    (pull_request), in which case created_at is the only clock reading
    taken, or it is a clock reading itself, taken just before the one of
    created_at. *)
Theorem handle_pull_request_times :
  forall fromisoformat payload w r w',
    handle_pull_request fromisoformat payload w = (Ok (Some r), w') ->
    exists key ts created,
      (classified (Some r) "merge" /\ key = "merged_at" \/
       classified (Some r) "pull_request" /\ key = "created_at") /\
      lookup "timestamp" r = Some (PDatetime ts) /\
      lookup "created_at" r = Some (PDatetime created) /\
      ((ts = naive (clock w (ticks w)) /\
        created = naive (clock w (S (ticks w))) /\
        w' = tick (tick w)) \/
       (exists s,
           field_at ["pull_request"; key] payload PNone = PStr s /\
           fromisoformat (str_replace s "Z" "+00:00") = Some ts /\
           created = naive (clock w (ticks w)) /\
           w' = tick w)).
Proof.
  intros fromisoformat payload w r w' H.
  unfold handle_pull_request in H.
  step_lift H as pull_request E. step_lift H as action E0.
  step_lift H as merged E1.
  apply py_get_Ok in E. destruct E as (d & -> & ->).
  pose proof E1 as E1'. apply py_get_Ok in E1'. destruct E1' as (p & Hp & _).
  rewrite Hp in *.
  assert (Htimes : forall key tstr ts w1 created w2,
             py_get (PDict p) key PNone = Ok tstr ->
             ((truthy tstr = true /\
               parse_github_timestamp fromisoformat tstr w = (Ok ts, w1)) \/
              utcnow w = (Ok ts, w1) \/
              parse_github_timestamp fromisoformat tstr w = (Ok ts, w1)) ->
             utcnow w1 = (Ok created, w2) ->
             (ts = naive (clock w (ticks w)) /\
              created = naive (clock w (S (ticks w))) /\
              w2 = tick (tick w)) \/
             (exists s,
                 field_at ["pull_request"; key] (PDict d) PNone = PStr s /\
                 fromisoformat (str_replace s "Z" "+00:00") = Some ts /\
                 created = naive (clock w (ticks w)) /\
                 w2 = tick w)).
  { intros key tstr ts w1 created w2 Hk Hts Hc.
    apply utcnow_Ok in Hc. destruct Hc as [-> ->].
    assert (Hparse : parse_github_timestamp fromisoformat tstr w = (Ok ts, w1)
                     \/ utcnow w = (Ok ts, w1)) by tauto.
    destruct Hparse as [Hparse | Hnow].
    - apply parse_github_timestamp_Ok in Hparse.
      destruct Hparse as [[-> ->] | (s & -> & Hf & ->)].
      + left. repeat split.
      + right. exists s. rewrite (pr_field p d key PNone _ Hp Hk).
        repeat split. exact Hf.
    - apply utcnow_Ok in Hnow. destruct Hnow as [-> ->].
      left. repeat split. }
  destruct (eq_str action "closed" && truthy merged).
  - step_lift H as base Ebase. step_lift H as head_ Ehead.
    step_lift H as base_ref Ebr. step_lift H as tb Etb.
    step_lift H as head_ref Ehr. step_lift H as fb Efb.
    step_lift H as author Eauthor. step_lift H as tstr Etstr.
    step_run H as ts w1 Rts.
    step_lift H as repository Erepository. step_lift H as repo Erepo.
    step_run H as created w2 Rcreated.
    apply ret_Ok in H. destruct H as [[= ->] ->].
    exists "merged_at", ts, created.
    split; [left; split; [eexists; split; reflexivity | reflexivity] | ].
    split; [reflexivity | split; [reflexivity | ]].
    apply (Htimes "merged_at" tstr ts w1 created w2 Etstr); [ | exact Rcreated].
    destruct (truthy tstr); [left; split; [reflexivity | exact Rts] | ].
    right; left; exact Rts.
  - destruct (eq_str action "opened" || eq_str action "synchronize").
    + step_lift H as base Ebase. step_lift H as head_ Ehead.
      step_lift H as base_ref Ebr. step_lift H as tb Etb.
      step_lift H as head_ref Ehr. step_lift H as fb Efb.
      step_lift H as author Eauthor. step_lift H as tstr Etstr.
      step_run H as ts w1 Rts.
      step_lift H as repository Erepository. step_lift H as repo Erepo.
      step_run H as created w2 Rcreated.
      apply ret_Ok in H. destruct H as [[= ->] ->].
      exists "created_at", ts, created.
      split; [right; split; [eexists; split; reflexivity | reflexivity] | ].
      split; [reflexivity | split; [reflexivity | ]].
      apply (Htimes "created_at" tstr ts w1 created w2 Etstr);
        [ | exact Rcreated].
      right; right; exact Rts.
    + apply ret_Ok in H. destruct H as [H _]. discriminate H.
Qed.

Lemma handle_pull_request_times_witness :
  exists key ts created,
    (classified
       (Some (pr_record "merge" "merged_by" (PDict merged_at_example)
                (PStr "unknown") (PStr "unknown")
                example_instant_utc example_instant)) "merge" /\
     key = "merged_at" \/
     classified
       (Some (pr_record "merge" "merged_by" (PDict merged_at_example)
                (PStr "unknown") (PStr "unknown")
                example_instant_utc example_instant)) "pull_request" /\
     key = "created_at") /\
    lookup "timestamp"
      (pr_record "merge" "merged_by" (PDict merged_at_example)
         (PStr "unknown") (PStr "unknown") example_instant_utc example_instant)
    = Some (PDatetime ts) /\
    lookup "created_at"
      (pr_record "merge" "merged_by" (PDict merged_at_example)
         (PStr "unknown") (PStr "unknown") example_instant_utc example_instant)
    = Some (PDatetime created) /\
    ((ts = naive (clock empty_world (ticks empty_world)) /\
      created = naive (clock empty_world (S (ticks empty_world))) /\
      tick empty_world = tick (tick empty_world)) \/
     (exists s,
         field_at ["pull_request"; key] (PDict merged_at_example) PNone
         = PStr s /\
         example_fromisoformat (str_replace s "Z" "+00:00") = Some ts /\
         created = naive (clock empty_world (ticks empty_world)) /\
         tick empty_world = tick empty_world)).
Proof.
  exact (handle_pull_request_times example_fromisoformat
           (PDict merged_at_example) empty_world _ (tick empty_world)
           eq_refl).
Defined.

(** ** The webhook route *)


(** The ways a webhook request can end. *)
Lemma webhook_cases fromisoformat event body w o w' :
  webhook fromisoformat event body w = (o, w') ->
  (o = Ok Stored /\
   exists r w1,
     store w' = (store w ++ [mkDocument (PObjectId (next_oid w1)) r])%list /\
     (event = "push" /\
      handle_push (request_payload body) w = (Ok r, w1) \/
      event = "pull_request" /\
      handle_pull_request fromisoformat (request_payload body) w
      = (Ok (Some r), w1))) \/
  (o <> Ok Stored /\ store w' = store w).
Proof.
  unfold webhook. fold (request_payload body).
  destruct (String.eqb_spec event "push") as [-> | Hpush].
  { pose proof (keeps_store_handle_push (request_payload body) w) as Hs.
    destruct (handle_push (request_payload body) w) as [[r|e] w1] eqn:H;
      [rewrite (bind_run _ _ _ _ _ H) | rewrite (bind_raise _ _ _ _ _ H)];
      cbn [snd] in Hs.
    - destruct (insert_then_stored r w1) as [[e He] | He]; rewrite He;
        intros [= <- <-].
      + right. split; [discriminate | exact Hs].
      + left. split; [reflexivity | ]. exists r, w1. cbn [store]. rewrite Hs.
        split; [reflexivity | left; split; reflexivity].
    - intros [= <- <-]. right. split; [discriminate | exact Hs]. }
  destruct (String.eqb_spec event "pull_request") as [-> | Hpr].
  { pose proof (keeps_store_handle_pull_request fromisoformat
                  (request_payload body) w) as Hs.
    destruct (handle_pull_request fromisoformat (request_payload body) w)
      as [[[r|]|e] w1] eqn:H;
      [rewrite (bind_run _ _ _ _ _ H) | rewrite (bind_run _ _ _ _ _ H)
       | rewrite (bind_raise _ _ _ _ _ H)];
      cbn [snd] in Hs.
    - destruct (insert_then_stored r w1) as [[e He] | He]; rewrite He;
        intros [= <- <-].
      + right. split; [discriminate | exact Hs].
      + left. split; [reflexivity | ]. exists r, w1. cbn [store]. rewrite Hs.
        split; [reflexivity | right; split; reflexivity].
    - intros [= <- <-]. right. split; [discriminate | exact Hs].
    - intros [= <- <-]. right. split; [discriminate | exact Hs]. }
  destruct (String.eqb event "ping"); intros [= <- <-];
    right; split; (discriminate || reflexivity).
Qed.





Lemma request_payload_empty body :
  body = None \/ (exists v, body = Some v /\ truthy v = false) ->
  request_payload body = PDict [].
Proof.
  intros [-> | (v & -> & Hv)]; [reflexivity | ].
  unfold request_payload, or_empty. rewrite Hv. reflexivity.
Qed.

(** X12: a body that is not JSON, or is a falsy JSON value (null, false,
    zero, the empty string, list or object), is treated as the empty
    object: a push stores the record made of the defaults, with the empty
    string as to_branch, and a pull_request is ignored. *)
Theorem webhook_empty_body :
  forall fromisoformat body w,
    body = None \/ (exists v, body = Some v /\ truthy v = false) ->
    webhook fromisoformat "push" body w
    = (Ok Stored,
       mkWorld (clock w) (S (S (ticks w)))
         (store w
          ++ [mkDocument (PObjectId (next_oid w))
                [("action", PStr "push");
                 ("author", PStr "unknown-user");
                 ("repo", PStr "unknown-repo");
                 ("from_branch", PNone);
                 ("to_branch", PStr "");
                 ("timestamp", PDatetime (naive (clock w (ticks w))));
                 ("created_at",
                  PDatetime (naive (clock w (S (ticks w)))))]])%list
         (next_oid w + 1)) /\
    webhook fromisoformat "pull_request" body w = (Ok Ignored, w).
Proof.
  intros fromisoformat body w Hbody.
  apply request_payload_empty in Hbody.
  unfold webhook. fold (request_payload body). rewrite Hbody.
  split; reflexivity.
Qed.

Lemma webhook_empty_body_witness :
  webhook rejecting_fromisoformat "pull_request" (Some (PList [])) empty_world
  = (Ok Ignored, empty_world).
Proof.
  exact (proj2 (webhook_empty_body rejecting_fromisoformat (Some (PList []))
                  empty_world
                  (or_intror (ex_intro _ (PList []) (conj eq_refl eq_refl))))).
Defined.

(** X13: a JSON body that is truthy without being an object (a number, a
    non-empty string or list, true) makes a push or pull_request webhook
    end in AttributeError, with nothing stored and no clock read. *)
Theorem webhook_non_object_body :
  forall fromisoformat event v w,
    event = "push" \/ event = "pull_request" ->
    truthy v = true -> is_dict v = false ->
    webhook fromisoformat event (Some v) w = (Raise AttributeError, w).
Proof.
  intros fromisoformat event v w Hevent Ht Hd.
  unfold webhook, or_empty. rewrite Ht.
  destruct Hevent as [-> | ->]; cbn [String.eqb Ascii.eqb Bool.eqb];
    destruct v; try discriminate Hd; reflexivity.
Qed.

Lemma webhook_non_object_body_witness :
  webhook rejecting_fromisoformat "push" (Some (PList [PInt 1])) empty_world
  = (Raise AttributeError, empty_world).
Proof.
  exact (webhook_non_object_body rejecting_fromisoformat "push"
           (PList [PInt 1]) empty_world (or_introl eq_refl) eq_refl eq_refl).
Defined.

(** ** Requests in sequence *)

Section Appending.

Variable fromisoformat : string -> option datetime.
Variable py_str : value -> string.
Variable bson_leb : value -> value -> bool.

Lemma serve_appends req w :
  exists added,
    store (serve fromisoformat py_str bson_leb req w)
    = (store w ++ added)%list /\
    (List.length added <= 1)%nat.
Proof.
  destruct req as [event body | | | ]; cbn [serve].
  - destruct (webhook_store fromisoformat event body w)
      as [Hs | (doc & a & Hs & _)].
    + exists []. rewrite app_nil_r. split; [exact Hs | simpl; lia].
    + exists [doc]. split; [exact Hs | simpl; lia].
  - eexists. split; [apply debug_insert_store | simpl; lia].
  - exists []. rewrite app_nil_r.
    split; [apply keeps_store_get_events | simpl; lia].
  - exists []. rewrite app_nil_r. split; [reflexivity | simpl; lia].
Qed.

End Appending.

(** X14: the collection only grows by appending: after any sequence of
    requests the documents that were stored are still there, unchanged and
    in the same order, followed by at most one new document per request. *)
Theorem run_appends_only :
  forall fromisoformat py_str bson_leb reqs w,
    exists added,
      store (run fromisoformat py_str bson_leb reqs w)
      = (store w ++ added)%list /\
      (List.length added <= List.length reqs)%nat.
Proof.
  intros fromisoformat py_str bson_leb reqs. unfold run.
  induction reqs as [|req reqs IH]; intros w; cbn [fold_left].
  - exists []. rewrite app_nil_r. split; [reflexivity | simpl; lia].
  - destruct (serve_appends fromisoformat py_str bson_leb req w)
      as (one & Hone & Hlen).
    destruct (IH (serve fromisoformat py_str bson_leb req w))
      as (more & Hmore & Hlen').
    exists (one ++ more)%list. rewrite Hmore, Hone, <- app_assoc.
    split; [reflexivity | ].
    rewrite length_app. simpl. lia.
Qed.

(** ** More on the query endpoint *)

Lemma sort_desc_length bson_leb l :
  List.length (fold_right (insert_desc bson_leb) [] l) = List.length l.
Proof. apply Permutation_length, sort_desc_perm. Qed.



Lemma in_copied_keys (P : string -> Prop) :
  P "action" -> P "author" -> P "to_branch" -> P "from_branch" -> P "repo" ->
  forall k, In k copied_keys -> P k.
Proof.
  intros H1 H2 H3 H4 H5 k Hk. cbn in Hk.
  repeat (destruct Hk as [<- | Hk]; [assumption | ]). contradiction.
Qed.

Lemma reshaped_element py_str doc tf :
  reshaped py_str doc (json_object (element_for py_str doc tf)).
Proof.
  rewrite json_object_element. unfold reshaped.
  split; [reflexivity | ].
  split; [apply in_copied_keys; reflexivity | ].
  split; [reflexivity | ].
  cbn [lookup String.eqb Ascii.eqb Bool.eqb].
  unfold timestamp_passed, created_passed.
  split; [intros dt ->; reflexivity | ].
  split.
  { intros Hts. destruct (field "timestamp" doc) as [ |b|n|m e|s|l|d|dt|oid];
      try reflexivity. destruct (Hts dt eq_refl). }
  split; [intros dt ->; reflexivity | ].
  intros Hc. destruct (field "created_at" doc) as [ |b|n|m e|s|l|d|dt|oid];
    try reflexivity. destruct (Hc dt eq_refl).
Qed.

Lemma find_sort_limit_decoded bson_leb w doc :
  In doc (find_sort_limit bson_leb w) ->
  exists d, In d (store w) /\ doc = decoded_document d.
Proof.
  unfold find_sort_limit. intros Hin.
  assert (Hall := in_or_app _ (skipn 100 (fold_right (insert_desc bson_leb) []
                                   (map decoded_document (store w))))
                   doc (or_introl Hin)).
  clear Hin. rename Hall into Hin.
  rewrite firstn_skipn in Hin.
  apply (Permutation_in doc (sort_desc_perm bson_leb _)) in Hin.
  apply in_map_iff in Hin. destruct Hin as (d & <- & Hd).
  exists d. split; [exact Hd | reflexivity].
Qed.

Lemma Forall2_with_left {A B} (P : A -> Prop) (R : A -> B -> Prop) l l' :
  Forall P l -> Forall2 R l l' -> Forall2 (fun a b => P a /\ R a b) l l'.
Proof.
  intros HP HR. induction HR as [|a b l l' Hab _ IH]; [constructor | ].
  inversion HP as [|a' l0 Ha Hl]; subst.
  constructor; [split; assumption | apply IH; exact Hl].
Qed.

(** X16: when the query returns, every element of the answer has the same
    nine keys, in the order of the keys, whatever its document holds; the
    document is one the store hands back for a stored one.  action,
    author, to_branch, from_branch and repo are copied, a missing one as
    null; _id is the [str] of the document's; a timestamp that is a
    datetime is given in ISO form, with Z appended only when it is naive,
    and any other value is passed through; a created_at that is a
    datetime is given in ISO form with Z always appended, and any other
    value is passed through.  Values copied or passed through are in the
    encoder's form. *)
Theorem get_events_elements :
  forall py_str bson_leb w outs,
    fst (get_events py_str bson_leb w) = Ok outs ->
    Forall2 (fun doc out =>
               (exists d, In d (store w) /\ doc = decoded_document d) /\
               reshaped py_str doc out)
            (find_sort_limit bson_leb w) outs.
Proof.
  intros py_str bson_leb w outs.
  destruct (get_events_run py_str bson_leb w) as (outs0 & Hall & Hrun).
  rewrite Hrun. cbn [fst].
  destruct (forallb encodable_document (find_sort_limit bson_leb w));
    [ | discriminate].
  intros [= <-].
  apply Forall2_with_left.
  - apply Forall_forall. intros doc. apply find_sort_limit_decoded.
  - revert Hall. apply Forall2_impl.
    intros doc out (tf & -> & _). apply reshaped_element.
Qed.

Lemma get_events_elements_witness :
  Forall2 (fun doc out =>
             (exists d, In d (store crowded_world) /\
                        doc = decoded_document d) /\
             reshaped text_of doc out)
          (find_sort_limit instant_leb crowded_world) crowded_answer.
Proof.
  apply (get_events_elements text_of instant_leb crowded_world).
  vm_compute. reflexivity.
Defined.

(** ** Storing, then querying *)

Lemma Forall2_In_left {A B} (R : A -> B -> Prop) l l' x :
  Forall2 R l l' -> In x l -> exists y, In y l' /\ R x y.
Proof.
  induction 1 as [|a b l l' Hab _ IH]; intros Hin; [contradiction | ].
  destruct Hin as [<- | Hin].
  - exists b. split; [left; reflexivity | exact Hab].
  - destruct (IH Hin) as (y & Hy & Hr). exists y. split; [right | ]; assumption.
Qed.

Lemma handler_record_timestamp fromisoformat event payload w r w1 :
  event = "push" /\ handle_push payload w = (Ok r, w1) \/
  event = "pull_request" /\
  handle_pull_request fromisoformat payload w = (Ok (Some r), w1) ->
  exists ts, lookup "timestamp" r = Some (PDatetime ts).
Proof.
  intros [[_ H] | [_ H]].
  - apply handle_push_Ok in H.
    destruct H as (d & s & ts & created & _ & _ & ->).
    exists ts. reflexivity.
  - apply handle_pull_request_Ok in H. destruct H as (d & _ & H). cbv zeta in H.
    destruct H as [(_ & tb & fb & ts & created & _ & _ & Hr)
                  | [(_ & _ & tb & fb & ts & created & _ & _ & Hr)
                    | (_ & _ & Hr & _)]];
      [ | | discriminate Hr]; injection Hr as ->; exists ts; reflexivity.
Qed.

Lemma field_decoded k doc :
  field k (decoded_document doc) = bson_decoded (field k doc).
Proof.
  unfold field, decoded_document. cbn [doc_fields].
  induction (doc_fields doc) as [|[k' v] rest IH]; cbn [map lookup].
  - reflexivity.
  - destruct (String.eqb k k'); [reflexivity | exact IH].
Qed.

Lemma bson_datetime_naive dt : dt_tzinfo (bson_datetime dt) = None.
Proof.
  unfold bson_datetime, naive_of_microseconds. cbv zeta.
  destruct (civil_from_days _) as [[y m] d]. reflexivity.
Qed.

(** While the collection holds at most 100 documents the answer of the
    query has an element for each of them. *)
Lemma get_events_returns_all py_str bson_leb w d outs :
  (List.length (store w) <= 100)%nat ->
  In d (store w) ->
  fst (get_events py_str bson_leb w) = Ok outs ->
  exists tf,
    In (json_object (element_for py_str (decoded_document d) tf)) outs /\
    timestamp_shown py_str (decoded_document d) tf.
Proof.
  intros Hlen Hin.
  destruct (get_events_run py_str bson_leb w) as (outs0 & Hall & Hrun).
  rewrite Hrun. cbn [fst].
  destruct (forallb encodable_document (find_sort_limit bson_leb w));
    [ | discriminate].
  intros [= <-].
  assert (Hdoc : In (decoded_document d) (find_sort_limit bson_leb w)).
  { unfold find_sort_limit. rewrite firstn_all2.
    - apply (Permutation_in _ (Permutation_sym (sort_desc_perm bson_leb _))).
      apply in_map. exact Hin.
    - rewrite sort_desc_length, length_map. exact Hlen. }
  destruct (Forall2_In_left _ _ _ _ Hall Hdoc) as (out & Hout & tf & -> & Hs).
  exists tf. split; assumption.
Qed.

(** X17: round trip.  When the webhook has answered stored, the collection
    having held fewer than 100 documents, and the query that follows
    returns, some element of its answer stands for the record: it carries
    the record's action, author, to_branch, from_branch and repo in the
    encoder's form, and its timestamp is the record's as the store hands
    it back, the instant in UTC cut to the millisecond: timestamp is its
    ISO form followed by Z and timestamp_formatted its formatted form. *)
Theorem stored_record_is_returned :
  forall fromisoformat py_str bson_leb event body w w1 outs,
    webhook fromisoformat event body w = (Ok Stored, w1) ->
    (List.length (store w) < 100)%nat ->
    fst (get_events py_str bson_leb w1) = Ok outs ->
    exists r out ts tf,
      (event = "push" /\
       fst (handle_push (request_payload body) w) = Ok r \/
       event = "pull_request" /\
       fst (handle_pull_request fromisoformat (request_payload body) w)
       = Ok (Some r)) /\
      In out outs /\
      (forall k, In k copied_keys ->
         lookup k out = Some (json_of (bson_decoded (get_or k r PNone)))) /\
      lookup "timestamp" r = Some (PDatetime ts) /\
      lookup "timestamp" out
      = Some (PStr (isoformat (bson_datetime ts) ++ "Z")) /\
      format_datetime (bson_datetime ts) = Ok tf /\
      lookup "timestamp_formatted" out = Some (PStr tf).
Proof.
  intros fromisoformat py_str bson_leb event body w w1 outs H Hlen Hrun.
  apply webhook_cases in H.
  destruct H as [(_ & r & w2 & Hs & Hr) | (Hne & _)]; [ | contradiction].
  destruct (handler_record_timestamp _ _ _ _ _ _ Hr) as (ts & Hts).
  set (doc := mkDocument (PObjectId (next_oid w2)) r) in *.
  destruct (get_events_returns_all py_str bson_leb w1 doc outs)
    as (tf & Hin & Hshown).
  { rewrite Hs, length_app. simpl. lia. }
  { rewrite Hs. apply in_or_app. right. left. reflexivity. }
  { exact Hrun. }
  assert (Hf : field "timestamp" (decoded_document doc)
               = PDatetime (bson_datetime ts)).
  { rewrite field_decoded. unfold field, doc. cbn [doc_fields].
    rewrite Hts. reflexivity. }
  exists r, (json_object (element_for py_str (decoded_document doc) tf)), ts, tf.
  split.
  { destruct Hr as [[-> Hr] | [-> Hr]]; [left | right];
      (split; [reflexivity | rewrite Hr; reflexivity]). }
  split; [exact Hin | ].
  rewrite json_object_element.
  split.
  { apply in_copied_keys; cbn [lookup String.eqb Ascii.eqb Bool.eqb];
      rewrite field_decoded; reflexivity. }
  split; [exact Hts | ].
  split.
  { cbn [lookup String.eqb Ascii.eqb Bool.eqb]. unfold timestamp_passed.
    rewrite Hf. cbn [json_of]. rewrite bson_datetime_naive. reflexivity. }
  unfold timestamp_shown in Hshown. rewrite Hf in Hshown.
  specialize (Hshown w). rewrite format_timestamp_datetime in Hshown.
  injection Hshown as Hshown.
  split; [exact Hshown | reflexivity].
Qed.

Lemma stored_record_is_returned_witness :
  bson_datetime offset_instant = mkDatetime 2021 April 1 16 0 0 0 None /\
  exists r out ts tf,
    ("pull_request" = "push" /\
     fst (handle_push (request_payload (Some (PDict merged_at_offset)))
            empty_world) = Ok r \/
     "pull_request" = "pull_request" /\
     fst (handle_pull_request offset_fromisoformat
            (request_payload (Some (PDict merged_at_offset))) empty_world)
     = Ok (Some r)) /\
    In out [[("_id", PStr "");
             ("action", PStr "merge");
             ("author", PStr "carol");
             ("created_at", PStr "2021-04-01T21:30:00Z");
             ("from_branch", PStr "feature");
             ("repo", PStr "octo/demo");
             ("timestamp", PStr "2021-04-01T16:00:00Z");
             ("timestamp_formatted", PStr "01st April 2021 - 4:00 PM UTC");
             ("to_branch", PStr "main")]] /\
    (forall k, In k copied_keys ->
       lookup k out = Some (json_of (bson_decoded (get_or k r PNone)))) /\
    lookup "timestamp" r = Some (PDatetime ts) /\
    lookup "timestamp" out
    = Some (PStr (isoformat (bson_datetime ts) ++ "Z")) /\
    format_datetime (bson_datetime ts) = Ok tf /\
    lookup "timestamp_formatted" out = Some (PStr tf).
Proof.
  split; [vm_compute; reflexivity | ].
  apply (stored_record_is_returned offset_fromisoformat text_of instant_leb
           "pull_request" (Some (PDict merged_at_offset)) empty_world
           (snd (webhook offset_fromisoformat "pull_request"
                   (Some (PDict merged_at_offset)) empty_world))).
  - vm_compute. reflexivity.
  - simpl. lia.
  - vm_compute. reflexivity.
Defined.

(** ** More on the timestamp utility *)

(** X18: formatting never raises, whatever it is given and whatever the
    day number: a datetime is formatted as it is and no clock is read; for
    any other value the next clock reading is formatted instead. *)
Theorem format_timestamp_never_raises :
  forall v w,
    exists s,
      format_timestamp v w
      = (Ok s, if is_datetime v then w else tick w) /\
      format_datetime
        (match v with
         | PDatetime dt => dt
         | _ => naive (clock w (ticks w))
         end) = Ok s.
Proof.
  intros v w.
  destruct v as [| | | | | | |dt|];
    try (destruct (format_datetime_total (naive (clock w (ticks w))))
           as [tf Htf];
         exists tf; split; [ | exact Htf];
         unfold format_timestamp;
         rewrite (bind_run _ _ _ _ _ (utcnow_run w));
         unfold lift; rewrite Htf; reflexivity).
  destruct (format_datetime_total dt) as [tf Htf].
  exists tf. split; [ | exact Htf].
  rewrite format_timestamp_datetime, Htf. reflexivity.
Qed.

(** X19: for a time of day with the hour in 0..23 and the minute in 0..59
    the output ends in the hour on the 12-hour clock (12 for midnight and
    for noon, never 0), a colon, the minute on exactly two digits, AM
    before noon and PM from noon on, and the suffix UTC. *)
Theorem format_datetime_clock_face :
  forall dt,
    0 <= dt_hour dt <= 23 -> 0 <= dt_minute dt <= 59 ->
    exists date hour,
      format_datetime dt
      = Ok (date ++ " - " ++ Z_to_string hour ++ ":"
              ++ zpad 2 (dt_minute dt) ++ " "
              ++ (if dt_hour dt <? 12 then "AM" else "PM") ++ " UTC") /\
      1 <= hour <= 12 /\
      (dt_hour dt = 0 \/ dt_hour dt = 12 -> hour = 12) /\
      (1 <= dt_hour dt <= 11 -> hour = dt_hour dt) /\
      (13 <= dt_hour dt <= 23 -> hour = dt_hour dt - 12) /\
      String.length (zpad 2 (dt_minute dt)) = 2%nat.
Proof.
  intros dt Hh Hm. unfold format_datetime.
  destruct (ordinal_suffix_total (dt_day dt)) as [suffix ->].
  exists (strftime_date dt suffix),
    (if dt_hour dt mod 12 =? 0 then 12 else dt_hour dt mod 12).
  split; [rewrite !append_assoc; reflexivity | ].
  assert (Hcase : dt_hour dt = 0 \/ dt_hour dt = 12 \/
                  1 <= dt_hour dt <= 11 \/ 13 <= dt_hour dt <= 23) by lia.
  assert (Hmod : dt_hour dt mod 12
                 = if dt_hour dt <? 12 then dt_hour dt else dt_hour dt - 12).
  { destruct (Z.ltb_spec (dt_hour dt) 12).
    - apply Z.mod_small. lia.
    - replace (dt_hour dt) with ((dt_hour dt - 12) + 1 * 12) at 1 by lia.
      rewrite Z.mod_add by lia. apply Z.mod_small. lia. }
  rewrite Hmod.
  split; [ | split; [ | split; [ | split; [ | apply zpad_minute; exact Hm]]]].
  - destruct (Z.ltb_spec (dt_hour dt) 12);
      destruct (Z.eqb_spec (if true then dt_hour dt else 0) 0); cbn in *;
      try lia;
      repeat match goal with
             | |- context [?a =? ?b] => destruct (Z.eqb_spec a b)
             end; lia.
  - intros [E | E]; rewrite E; reflexivity.
  - intros H. destruct (Z.ltb_spec (dt_hour dt) 12); [ | lia].
    destruct (Z.eqb_spec (dt_hour dt) 0); lia.
  - intros H. destruct (Z.ltb_spec (dt_hour dt) 12); [lia | ].
    destruct (Z.eqb_spec (dt_hour dt - 12) 0); lia.
Qed.

Lemma format_datetime_clock_face_witness :
  exists date hour,
    format_datetime (mkDatetime 2021 April 1 0 5 0 0 None)
    = Ok (date ++ " - " ++ Z_to_string hour ++ ":" ++ zpad 2 5 ++ " "
            ++ (if 0 <? 12 then "AM" else "PM") ++ " UTC") /\
    1 <= hour <= 12 /\
    (0 = 0 \/ 0 = 12 -> hour = 12) /\
    (1 <= 0 <= 11 -> hour = 0) /\
    (13 <= 0 <= 23 -> hour = 0 - 12) /\
    String.length (zpad 2 5) = 2%nat.
Proof.
  apply (format_datetime_clock_face (mkDatetime 2021 April 1 0 5 0 0 None));
    simpl; lia.
Defined.

(** ** The debug route and the author chain *)

(** X20: the debug route always succeeds and appends a document that has
    no timestamp and no branches.  When the query that follows returns,
    the collection having held fewer than 100 documents, it shows the
    document with action debug, author ankith, repo manual-test, an empty
    timestamp_formatted, a null timestamp, null branches, and as
    created_at the clock reading as the store hands it back, cut to the
    millisecond, in ISO form followed by Z. *)
Theorem debug_record_is_returned :
  forall py_str bson_leb w,
    exists w1,
      debug_insert w = (Ok "Inserted test document", w1) /\
      forall outs,
        (List.length (store w) < 100)%nat ->
        fst (get_events py_str bson_leb w1) = Ok outs ->
        exists out,
          In out outs /\
          lookup "action" out = Some (PStr "debug") /\
          lookup "author" out = Some (PStr "ankith") /\
          lookup "repo" out = Some (PStr "manual-test") /\
          lookup "to_branch" out = Some PNone /\
          lookup "from_branch" out = Some PNone /\
          lookup "timestamp" out = Some PNone /\
          lookup "timestamp_formatted" out = Some (PStr "") /\
          lookup "created_at" out
          = Some (PStr (isoformat (bson_datetime (naive (clock w (ticks w))))
                          ++ "Z")).
Proof.
  intros py_str bson_leb w.
  set (doc := mkDocument (PObjectId (next_oid w))
                [("action", PStr "debug");
                 ("author", PStr "ankith");
                 ("repo", PStr "manual-test");
                 ("created_at", PDatetime (naive (clock w (ticks w))))]).
  exists (snd (debug_insert w)).
  split; [reflexivity | ].
  intros outs Hlen Hrun.
  assert (Hs : store (snd (debug_insert w)) = (store w ++ [doc])%list)
    by apply debug_insert_store.
  destruct (get_events_returns_all py_str bson_leb (snd (debug_insert w))
              doc outs)
    as (tf & Hin & Hshown).
  { rewrite Hs, length_app. simpl. lia. }
  { rewrite Hs. apply in_or_app. right. left. reflexivity. }
  { exact Hrun. }
  exists (json_object (element_for py_str (decoded_document doc) tf)).
  split; [exact Hin | ].
  unfold timestamp_shown in Hshown. rewrite field_decoded in Hshown.
  change (field "timestamp" doc) with PNone in Hshown.
  cbn [bson_decoded truthy] in Hshown. subst tf.
  rewrite json_object_element.
  unfold timestamp_passed, created_passed.
  cbn [lookup String.eqb Ascii.eqb Bool.eqb].
  rewrite !field_decoded.
  repeat split.
Qed.

Lemma debug_record_is_returned_witness :
  exists w1,
    debug_insert precise_world = (Ok "Inserted test document", w1) /\
    fst (get_events text_of instant_leb w1)
    = Ok [[("_id", PStr "");
           ("action", PStr "debug");
           ("author", PStr "ankith");
           ("created_at", PStr "2021-04-01T21:30:00.123000Z");
           ("from_branch", PNone);
           ("repo", PStr "manual-test");
           ("timestamp", PNone);
           ("timestamp_formatted", PStr "");
           ("to_branch", PNone)]] /\
    exists out,
      In out [[("_id", PStr "");
               ("action", PStr "debug");
               ("author", PStr "ankith");
               ("created_at", PStr "2021-04-01T21:30:00.123000Z");
               ("from_branch", PNone);
               ("repo", PStr "manual-test");
               ("timestamp", PNone);
               ("timestamp_formatted", PStr "");
               ("to_branch", PNone)]] /\
      lookup "action" out = Some (PStr "debug") /\
      lookup "author" out = Some (PStr "ankith") /\
      lookup "repo" out = Some (PStr "manual-test") /\
      lookup "to_branch" out = Some PNone /\
      lookup "from_branch" out = Some PNone /\
      lookup "timestamp" out = Some PNone /\
      lookup "timestamp_formatted" out = Some (PStr "") /\
      lookup "created_at" out
      = Some (PStr (isoformat
                      (bson_datetime
                         (naive (clock precise_world (ticks precise_world))))
                      ++ "Z")).
Proof.
  destruct (debug_record_is_returned text_of instant_leb precise_world)
    as (w1 & Hins & Hshow).
  exists w1. split; [exact Hins | ].
  injection Hins as <-.
  assert (Hrun : fst (get_events text_of instant_leb
                        (snd (debug_insert precise_world)))
                 = Ok [[("_id", PStr "");
                        ("action", PStr "debug");
                        ("author", PStr "ankith");
                        ("created_at", PStr "2021-04-01T21:30:00.123000Z");
                        ("from_branch", PNone);
                        ("repo", PStr "manual-test");
                        ("timestamp", PNone);
                        ("timestamp_formatted", PStr "");
                        ("to_branch", PNone)]])
    by (vm_compute; reflexivity).
  split; [exact Hrun | ].
  apply Hshow; [simpl; lia | exact Hrun].
Defined.

(** X21: the author chain stops at the first truthy login.  When
    [pull_request.<who>.login] is truthy it is the author and [sender] is
    never read, so a malformed [sender] does no harm; when the primary
    holder is absent and [sender] is truthy without being an object, the
    chain raises AttributeError. *)
Theorem login_chain_short_circuit :
  forall p payload who,
    (forall holder login,
        lookup who p = Some (PDict holder) ->
        lookup "login" holder = Some login ->
        truthy login = true ->
        login_chain (PDict p) payload who = Ok login) /\
    (forall d sender,
        payload = PDict d ->
        lookup who p = None ->
        lookup "sender" d = Some sender ->
        truthy sender = true -> is_dict sender = false ->
        login_chain (PDict p) payload who = Raise AttributeError).
Proof.
  intros p payload who. split.
  - intros holder login Hwho Hlogin Ht. unfold login_chain.
    cbn [py_get]. rewrite (get_or_found _ _ _ _ Hwho), or_empty_dict.
    cbn [py_get]. rewrite (get_or_found _ _ _ _ Hlogin), Ht. reflexivity.
  - intros d sender -> Hwho Hsender Ht Hd. unfold login_chain.
    cbn [py_get]. rewrite (get_or_missing _ _ _ Hwho).
    cbn. rewrite (get_or_found _ _ _ _ Hsender).
    unfold or_empty. rewrite Ht.
    destruct sender; try discriminate Hd; reflexivity.
Qed.

Lemma login_chain_short_circuit_witness :
  login_chain (PDict [("user", PDict [("login", PStr "bob")])])
    (PDict [("sender", PStr "nobody")]) "user" = Ok (PStr "bob") /\
  login_chain (PDict []) (PDict [("sender", PStr "nobody")]) "user"
  = Raise AttributeError.
Proof.
  split.
  - exact (proj1 (login_chain_short_circuit
                    [("user", PDict [("login", PStr "bob")])]
                    (PDict [("sender", PStr "nobody")]) "user")
             [("login", PStr "bob")] (PStr "bob") eq_refl eq_refl eq_refl).
  - exact (proj2 (login_chain_short_circuit []
                    (PDict [("sender", PStr "nobody")]) "user")
             [("sender", PStr "nobody")] (PStr "nobody")
             eq_refl eq_refl eq_refl eq_refl eq_refl).
Defined.
